(** * submit_assignment.py: configuration reading and assignment submission

    A shallow embedding of [src/submit_assignment.py].  The program reads a
    YAML include file from an assignment directory, validates it, expands
    the declared glob patterns, uploads every resolved file through the
    [canvasapi] client and finally submits the uploaded files.

    Everything the program does not implement itself (the file system, the
    YAML parser, [glob], [str.format] and the [canvasapi] client) is gathered
    in the [Platform] class; the program is a function of it. *)

From Stdlib Require Import String Ascii List ZArith Bool Lia DecimalString.
Import ListNotations.
Local Open Scope string_scope.
Local Open Scope list_scope.
Set Warnings "-register-all".

(** ** Python values

    The values [yaml.load] and the JSON decoder of the client produce.
    A dictionary keeps its items in insertion order, which is also the
    order in which iterating over it yields its keys. *)

Inductive pyval : Type :=
| PNone
| PBool (b : bool)
| PInt (z : Z)
| PStr (s : string)
| PList (l : list pyval)
| PDict (d : list (pyval * pyval)).

(** The exceptions the program raises itself or lets through. *)
Inductive exn : Type :=
| ValueError (msg : string)
| FileNotFoundError (msg : string)
| IOError (msg : string)
| KeyError (key : string)
| TypeError
| AttributeError
| LibraryError (msg : string).

Inductive result (A : Type) : Type :=
| Ok (a : A)
| Raise (e : exn).

Arguments Ok {A} a.
Arguments Raise {A} e.

Definition rbind {A B : Type} (r : result A) (k : A -> result B) : result B :=
  match r with
  | Ok a => k a
  | Raise e => Raise e
  end.

Declare Scope result_scope.
Delimit Scope result_scope with result.
Notation "x <- r ;; k" := (rbind r (fun x => k))
  (at level 100, r at next level, right associativity) : result_scope.
Notation "' p <- r ;; k" := (rbind r (fun p => k))
  (at level 100, p pattern, r at next level, right associativity) : result_scope.

(** [type(v) == str] and [type(v) == dict]. *)
Definition type_is_str (v : pyval) : bool :=
  match v with PStr _ => true | _ => false end.

Definition type_is_dict (v : pyval) : bool :=
  match v with PDict _ => true | _ => false end.

(** A dictionary key compared with a [str]: only an equal [str] matches. *)
Definition key_is (k : string) (v : pyval) : bool :=
  match v with PStr s => String.eqb s k | _ => false end.

Fixpoint dict_get (k : string) (d : list (pyval * pyval)) : option pyval :=
  match d with
  | [] => None
  | (k', v) :: d' => if key_is k k' then Some v else dict_get k d'
  end.

(** [k in keys] for a [str] [k]. *)
Definition py_in (k : string) (keys : list pyval) : bool :=
  existsb (key_is k) keys.

(** [k in v] for a [str] [k], where [v] is a dictionary. *)
Definition dict_contains (v : pyval) (k : string) : bool :=
  match v with
  | PDict d => py_in k (map fst d)
  | _ => false
  end.

(** [v.keys()]: only a dictionary has the method. *)
Definition py_keys (v : pyval) : result (list pyval) :=
  match v with
  | PDict d => Ok (map fst d)
  | _ => Raise AttributeError
  end.

(** [v[k]] for a [str] [k]. *)
Definition py_getitem (v : pyval) (k : string) : result pyval :=
  match v with
  | PDict d =>
      match dict_get k d with
      | Some x => Ok x
      | None => Raise (KeyError k)
      end
  | _ => Raise TypeError
  end.

(** A [str] is held as its UTF-8 text.  A byte [10xxxxxx] continues the
    character begun before it. *)
Definition is_continuation (c : ascii) : bool :=
  match c with
  | Ascii _ _ _ _ _ _ false true => true
  | _ => false
  end.

Definition continues (s : string) : bool :=
  match s with
  | String c _ => is_continuation c
  | EmptyString => false
  end.

(** The characters (code points) of a [str], each as a string of its own:
    a byte goes with the continuation bytes that follow it. *)
Fixpoint code_points (s : string) : list string :=
  match s with
  | EmptyString => []
  | String c s' =>
      if continues s' then
        match code_points s' with
        | item :: items => String c item :: items
        | [] => [String c EmptyString]
        end
      else String c EmptyString :: code_points s'
  end.

(** What [for entry in v] iterates over: the items of a list, the
    characters of a string, the keys of a dictionary. *)
Definition py_iter (v : pyval) : result (list pyval) :=
  match v with
  | PList l => Ok l
  | PStr s => Ok (map PStr (code_points s))
  | PDict d => Ok (map fst d)
  | _ => Raise TypeError
  end.

(** ** [os.path.join] (POSIX), for two components *)

Definition startswith_sep (b : string) : bool :=
  match b with
  | String c _ => Ascii.eqb c "/"
  | EmptyString => false
  end.

Fixpoint endswith_sep (a : string) : bool :=
  match a with
  | EmptyString => false
  | String c EmptyString => Ascii.eqb c "/"
  | String _ a' => endswith_sep a'
  end.

Definition os_path_join (a b : string) : string :=
  if startswith_sep b then b
  else if (String.eqb a "" || endswith_sep a)%bool then a ++ b
  else a ++ "/" ++ b.

(** ** The configuration keys *)

Inductive ConfigOptions : Type := AID | CID | URL | FILES | API_KEY.

Definition value (opt : ConfigOptions) : string :=
  match opt with
  | AID => "assignment_id"
  | CID => "course_id"
  | URL => "canvas_url"
  | FILES => "files"
  | API_KEY => "api_key"
  end.

(** [list(ConfigOptions)]: the members in definition order. *)
Definition list_ConfigOptions : list ConfigOptions :=
  [AID; CID; URL; FILES; API_KEY].

(** ** The client's handles *)

Record Canvas : Type := { base_url : pyval; access_token : pyval }.
Record Requester : Type := { requester_url : pyval; requester_token : pyval }.
Record User : Type := { id : pyval }.

(** ** The platform

    [World] is the state of everything outside the program: the file
    system and the remote service.  Looking at the file system leaves it
    unchanged; a call of the client returns or raises and leaves a new
    world behind. *)

Class Platform : Type := {
  World : Type;
  Course : Type;
  Assignment : Type;
  os_path_isdir : World -> string -> bool;
  os_path_isfile : World -> string -> bool;
  (* [open(p, 'r')] followed by [f.read()] *)
  read_text : World -> string -> result string;
  yaml_load : string -> result pyval;
  glob : World -> string -> list string;
  (* the text [str.format] and [print] produce for a value *)
  py_format : pyval -> string;
  get_current_user : World -> Canvas -> result User * World;
  get_course : World -> Canvas -> pyval -> result Course * World;
  course_get_assignment : World -> Course -> pyval -> result Assignment * World;
  assignment_submit : World -> Assignment -> pyval -> result pyval * World;
  (* [Uploader(requester, url, path).start()] *)
  uploader_start : World -> Requester -> string -> string -> result (bool * pyval) * World
}.

(** ** [class ConfigReader] *)

Module ConfigReader.

Record t : Type := { path : string; include_file : string }.

(** [ConfigReader(path)] with the default include file. *)
Definition init (path : string) : t :=
  {| path := path; include_file := ".canvas-include.yml" |}.

Section Reader.
Context `{Platform}.
Local Open Scope result_scope.

Definition FIRST_LEVEL_KEYS : list string := map value list_ConfigOptions.

(** The loop of [__validate_config]. *)
Fixpoint validate_loop (config : pyval) (keys bad_keys : list string)
  : result (list string) :=
  match keys with
  | [] => Ok bad_keys
  | key :: keys' =>
      ks <- py_keys config ;;
      if negb (py_in key ks)
      then validate_loop config keys' (bad_keys ++ [key])
      else validate_loop config keys' bad_keys
  end.

Definition nl : string := String (ascii_of_nat 10) EmptyString.

Definition indent32 : string := "                                ".

Definition missing_keys_message (bad_keys : list string) : string :=
  "provided configuration " ++ nl ++
  indent32 ++ "file is missing " ++ nl ++
  indent32 ++ "required keys: " ++ py_format (PList (map PStr bad_keys)).

Definition __validate_config (config : pyval) : result unit :=
  bad_keys <- validate_loop config FIRST_LEVEL_KEYS [] ;;
  match bad_keys with
  | [] => Ok tt
  | _ :: _ => Raise (ValueError (missing_keys_message bad_keys))
  end.

(** The first loop of [_get_file_list], over the declared entries. *)
Fixpoint files_loop (w : World) (self : t) (files : list pyval)
  (globs_to_zip : pyval) (file_list : list string)
  : result (pyval * list string) :=
  match files with
  | [] => Ok (globs_to_zip, file_list)
  | entry :: files' =>
      if (type_is_dict entry && dict_contains entry "zip")%bool
      then
        g <- py_getitem entry "zip" ;;
        files_loop w self files' g file_list
      else
        match entry with
        | PStr s =>
            files_loop w self files' globs_to_zip
              (file_list ++ glob w (os_path_join (path self) s))
        | _ => Raise (ValueError "unexpected type detected in file list")
        end
  end.

(** The second loop, over the patterns to zip. *)
Fixpoint zip_loop (w : World) (self : t) (globs_to_zip : list pyval)
  (zip_file_list : list string) : result (list string) :=
  match globs_to_zip with
  | [] => Ok zip_file_list
  | entry :: rest =>
      match entry with
      | PStr s =>
          zip_loop w self rest
            (zip_file_list ++ glob w (os_path_join (path self) s))
      | _ => Raise (ValueError "unexpected type detected in zip file list")
      end
  end.

Definition _get_file_list (w : World) (self : t) (config : pyval)
  : result (list string * list string) :=
  files <- py_getitem config (value FILES) ;;
  entries <- py_iter files ;;
  '(globs_to_zip, file_list) <- files_loop w self entries (PList []) [] ;;
  zip_entries <- py_iter globs_to_zip ;;
  zip_file_list <- zip_loop w self zip_entries [] ;;
  Ok (file_list, zip_file_list).

Definition read (w : World) (self : t)
  : result (pyval * list string * list string) :=
  if negb (os_path_isdir w (path self))
  then Raise (ValueError ("'path' (" ++ path self ++ ") must be a directory."))
  else
    let include_file_path := os_path_join (path self) (include_file self) in
    if negb (os_path_isfile w include_file_path)
    then Raise (FileNotFoundError (include_file_path ++ " does not exist"))
    else
      text <- read_text w include_file_path ;;
      canvas_config <- yaml_load text ;;
      _ <- __validate_config canvas_config ;;
      '(file_list, zip_file_list) <- _get_file_list w self canvas_config ;;
      Ok (canvas_config, file_list, zip_file_list).

End Reader.
End ConfigReader.

(** ** Programs

    A program step sees the world, the log of the calls made to the client
    and the lines printed so far.  A raised exception keeps the state: what
    was sent stays sent. *)

Section Programs.
Context `{Platform}.

Inductive call : Type :=
| GetCurrentUser (c : Canvas)
| GetCourse (c : Canvas) (course_id : pyval)
| GetAssignment (c : Course) (assignment_id : pyval)
| Submit (a : Assignment) (submission : pyval)
| Upload (r : Requester) (upload_url path : string).

Record state : Type := {
  world : World;
  calls : list call;
  stdout : list string
}.

Definition prog (A : Type) : Type := state -> result A * state.

Definition ret {A : Type} (a : A) : prog A := fun s => (Ok a, s).

Definition raise {A : Type} (e : exn) : prog A := fun s => (Raise e, s).

Definition bind {A B : Type} (m : prog A) (k : A -> prog B) : prog B :=
  fun s =>
    match m s with
    | (Ok a, s') => k a s'
    | (Raise e, s') => (Raise e, s')
    end.

(** A computation that only looks at the world. *)
Definition look {A : Type} (f : World -> result A) : prog A :=
  fun s => (f (world s), s).

(** A call of the client: logged, then answered by the platform. *)
Definition invoke {A : Type} (c : call) (op : World -> result A * World)
  : prog A :=
  fun s =>
    let (r, w') := op (world s) in
    (r, {| world := w'; calls := calls s ++ [c]; stdout := stdout s |}).

Definition print (line : string) : prog unit :=
  fun s =>
    (Ok tt, {| world := world s; calls := calls s;
               stdout := stdout s ++ [line] |}).

End Programs.

Declare Scope prog_scope.
Delimit Scope prog_scope with prog.
Notation "x <- m ;; k" := (bind m (fun x => k))
  (at level 100, m at next level, right associativity) : prog_scope.
Notation "' p <- m ;; k" := (bind m (fun p => k))
  (at level 100, p pattern, m at next level, right associativity) : prog_scope.
Notation "m ;; k" := (bind m (fun _ => k))
  (at level 100, right associativity) : prog_scope.

(** ** [upload_file_to_assignment] *)

Section Upload.
Context `{Platform}.
Local Open Scope prog_scope.

Definition upload_url_of (course_id assn_id user_id : pyval) : string :=
  "/api/v1/courses/" ++ py_format course_id
  ++ "/assignments/" ++ py_format assn_id
  ++ "/submissions/" ++ py_format user_id ++ "/files".

Definition upload_file_to_assignment (requester : Requester)
  (course_id assn_id user_id : pyval) (path : string) : prog (bool * pyval) :=
  isfile <- look (fun w => Ok (os_path_isfile w path)) ;;
  if negb isfile
  then raise (ValueError "'path' must be a valid path to a file.")
  else
    let upload_url := upload_url_of course_id assn_id user_id in
    print upload_url ;;
    print path ;;
    invoke (Upload requester upload_url path)
           (fun w => uploader_start w requester upload_url path).

End Upload.

(** ** [class CanvasAssignment] *)

Module CanvasAssignment.

Record t : Type := {
  file_list : list string;
  zip_file_list : list string;
  assignment_id : pyval;
  course_id : pyval;
  _canvas : Canvas;
  _requester : Requester;
  user_id : pyval
}.

Section Submitter.
Context `{Platform}.
Local Open Scope prog_scope.

Definition init (path include_file : string) : prog t :=
  '(config, file_list, zip_file_list) <-
     look (fun w => ConfigReader.read w
             {| ConfigReader.path := path;
                ConfigReader.include_file := include_file |}) ;;
  assignment_id <- look (fun _ => py_getitem config (value AID)) ;;
  course_id <- look (fun _ => py_getitem config (value CID)) ;;
  url <- look (fun _ => py_getitem config (value URL)) ;;
  key <- look (fun _ => py_getitem config (value API_KEY)) ;;
  let canvas := {| base_url := url; access_token := key |} in
  let requester := {| requester_url := url; requester_token := key |} in
  user <- invoke (GetCurrentUser canvas) (fun w => get_current_user w canvas) ;;
  print (py_format (id user)) ;;
  ret {| file_list := file_list;
         zip_file_list := zip_file_list;
         assignment_id := assignment_id;
         course_id := course_id;
         _canvas := canvas;
         _requester := requester;
         user_id := id user |}.

Definition get_assignment (self : t) : prog Assignment :=
  course <- invoke (GetCourse (_canvas self) (course_id self))
                   (fun w => get_course w (_canvas self) (course_id self)) ;;
  invoke (GetAssignment course (assignment_id self))
         (fun w => course_get_assignment w course (assignment_id self)).

(** The loop of [submit]. *)
Fixpoint upload_loop (self : t) (paths : list string) (file_ids : list pyval)
  : prog (list pyval) :=
  match paths with
  | [] => ret file_ids
  | path :: paths' =>
      '(success, response) <-
         upload_file_to_assignment (_requester self) (course_id self)
           (assignment_id self) (user_id self) path ;;
      if negb success
      then raise (IOError ("Failed to upload " ++ path ++ "."))
      else
        file_id <- look (fun _ => py_getitem response "id") ;;
        upload_loop self paths' (file_ids ++ [file_id])
  end.

Definition submission_of (file_ids : list pyval) : pyval :=
  PDict [(PStr "file_ids", PList file_ids);
         (PStr "submission_type", PStr "online_upload")].

Definition submit (self : t) : prog pyval :=
  file_ids <- upload_loop self (file_list self) [] ;;
  let submission := submission_of file_ids in
  assignment <- get_assignment self ;;
  invoke (Submit assignment submission)
         (fun w => assignment_submit w assignment submission).

End Submitter.
End CanvasAssignment.

(** ** Vocabulary of the statements *)

Section Vocabulary.
Context `{Platform}.

(** The matches of a list of patterns under the reader's directory, in
    the order of the patterns. *)
Definition expand (w : World) (self : ConfigReader.t) (patterns : list string)
  : list string :=
  flat_map (fun s => glob w (os_path_join (ConfigReader.path self) s)) patterns.

(** An entry the first loop accepts: a string, or a dictionary that has
    the key "zip". *)
Definition well_shaped (entry : pyval) : bool :=
  type_is_str entry || (type_is_dict entry && dict_contains entry "zip").

(** The string entries of a file list, in order. *)
Definition strings_of (entries : list pyval) : list string :=
  flat_map (fun v => match v with PStr s => [s] | _ => [] end) entries.

(** What the last dictionary with a key "zip" holds under it, or
    [default] when there is none. *)
Fixpoint last_zip (entries : list pyval) (default : pyval) : pyval :=
  match entries with
  | [] => default
  | PDict d :: entries' =>
      match dict_get "zip" d with
      | Some g => last_zip entries' g
      | None => last_zip entries' default
      end
  | _ :: entries' => last_zip entries' default
  end.

(** [k] is not a key of the dictionary [d]. *)
Definition absent (d : list (pyval * pyval)) (k : string) : bool :=
  negb (py_in k (map fst d)).

(** The call [upload_file_to_assignment] sends for [path]. *)
Definition upload_call (self : CanvasAssignment.t) (path : string) : call :=
  Upload (CanvasAssignment._requester self)
    (upload_url_of (CanvasAssignment.course_id self)
       (CanvasAssignment.assignment_id self) (CanvasAssignment.user_id self))
    path.

(** The state after [upload_file_to_assignment] went through for [path]
    and left the world [w']. *)
Definition after_upload (self : CanvasAssignment.t) (s : state)
  (path : string) (w' : World) : state :=
  {| world := w';
     calls := calls s ++ [upload_call self path];
     stdout := (stdout s ++
                [upload_url_of (CanvasAssignment.course_id self)
                   (CanvasAssignment.assignment_id self)
                   (CanvasAssignment.user_id self)]) ++ [path] |}.

(** [uploaded self s paths ids s']: started in [s], the upload of each of
    [paths] in turn finds the file, reports success and returns a response
    with an identifier; [ids] are these identifiers and [s'] is the state
    this leaves. *)
Inductive uploaded (self : CanvasAssignment.t)
  : state -> list string -> list pyval -> state -> Prop :=
| uploaded_nil : forall s, uploaded self s [] [] s
| uploaded_cons : forall s path paths response file_id w' ids s',
    os_path_isfile (world s) path = true ->
    uploader_start (world s) (CanvasAssignment._requester self)
      (upload_url_of (CanvasAssignment.course_id self)
         (CanvasAssignment.assignment_id self)
         (CanvasAssignment.user_id self)) path
    = (Ok (true, response), w') ->
    py_getitem response "id" = Ok file_id ->
    uploaded self (after_upload self s path w') paths ids s' ->
    uploaded self s (path :: paths) (file_id :: ids) s'.

Definition is_submit (c : call) : bool :=
  match c with Submit _ _ => true | _ => false end.

Definition is_upload (c : call) : bool :=
  match c with Upload _ _ _ => true | _ => false end.

End Vocabulary.

(** ** A small concrete platform

    A disk with a few text files and a service that numbers uploads, on
    which the statements below are run. *)

Module Fixture.

Record disk : Type := {
  dirs : list string;
  texts : list (string * string);
  next_id : Z;
  rejected : list string
}.

Definition mem (p : string) (l : list string) : bool :=
  existsb (String.eqb p) l.

Fixpoint assoc {A : Type} (p : string) (l : list (string * A)) : option A :=
  match l with
  | [] => None
  | (q, a) :: l' => if String.eqb p q then Some a else assoc p l'
  end.

(** Shell-style matching: [*] stands for any run of characters other than
    the separator, [?] for one such character. *)
Fixpoint wild_match (p s : list ascii) {struct p} : bool :=
  match p with
  | [] => match s with [] => true | _ :: _ => false end
  | c :: p' =>
      if Ascii.eqb c "*" then
        (fix star (s : list ascii) : bool :=
           wild_match p' s ||
           match s with
           | [] => false
           | d :: s' => negb (Ascii.eqb d "/") && star s'
           end) s
      else
        match s with
        | [] => false
        | d :: s' =>
            ((Ascii.eqb c "?" && negb (Ascii.eqb d "/")) || Ascii.eqb c d)
            && wild_match p' s'
        end
  end.

Definition disk_glob (w : disk) (pattern : string) : list string :=
  filter (fun f => wild_match (list_ascii_of_string pattern)
                              (list_ascii_of_string f))
         (map fst (texts w)).

Definition quoted (v : pyval) : string :=
  match v with
  | PStr s => "'" ++ s ++ "'"
  | PInt z => NilZero.string_of_int (Z.to_int z)
  | PNone => "None"
  | PBool true => "True"
  | PBool false => "False"
  | PList _ => "[...]"
  | PDict _ => "{...}"
  end.

Definition format (v : pyval) : string :=
  match v with
  | PStr s => s
  | PList l => "[" ++ String.concat ", " (map quoted l) ++ "]"
  | _ => quoted v
  end.

(** The disk after one more upload was numbered. *)
Definition bump (w : disk) : disk :=
  {| dirs := dirs w; texts := texts w;
     next_id := next_id w + 1; rejected := rejected w |}.

Definition start (w : disk) (r : Requester) (url path : string)
  : result (bool * pyval) * disk :=
  if mem path (rejected w)
  then (Ok (false, PDict [(PStr "error", PStr "rejected")]), w)
  else (Ok (true, PDict [(PStr "id", PInt (next_id w));
                         (PStr "url", PStr (url ++ "/" ++ path))]),
        bump w).

(** The platform; [documents] lists the texts its parser knows, each with
    the value it stands for. *)
Definition platform (documents : list (string * pyval)) : Platform :=
  {| World := disk;
     Course := pyval;
     Assignment := pyval * pyval;
     os_path_isdir := fun w p => mem p (dirs w);
     os_path_isfile := fun w p => mem p (map fst (texts w));
     read_text := fun w p =>
       match assoc p (texts w) with
       | Some t => Ok t
       | None => Raise (LibraryError "cannot open")
       end;
     yaml_load := fun text =>
       match assoc text documents with
       | Some v => Ok v
       | None => Raise (LibraryError "cannot parse")
       end;
     glob := disk_glob;
     py_format := format;
     get_current_user := fun w _ => (Ok {| id := PInt 7 |}, w);
     get_course := fun w _ cid => (Ok cid, w);
     course_get_assignment := fun w c aid => (Ok (c, aid), w);
     assignment_submit := fun w _ submission => (Ok submission, w);
     uploader_start := start |}.

(** The directory of the example, [hw]: the include file, holding the
    text [include], and the files [names]; uploads of [rejected] fail. *)
Definition disk_of (include : string) (names rejected : list string) : disk :=
  {| dirs := ["hw"; "hw/a"; "hw/b"];
     texts := ("hw/.canvas-include.yml", include)
              :: map (fun n => (n, "text")) names;
     next_id := 100;
     rejected := rejected |}.

Definition names : list string := ["hw/a/1.txt"; "hw/a/2.txt"; "hw/b/x.py"].

Definition hw : disk := disk_of "example" names [].

Definition with_files (entries : list pyval) : pyval :=
  PDict [(PStr "assignment_id", PInt 12);
         (PStr "course_id", PInt 3);
         (PStr "canvas_url", PStr "https://canvas.example.edu");
         (PStr "files", PList entries);
         (PStr "api_key", PStr "secret")].

Definition example_files : list pyval :=
  [PStr "a/*.txt"; PDict [(PStr "zip", PList [PStr "b/*.py"])]].

(** An integer among the entries. *)
Definition integer_files : list pyval := [PStr "a/*.txt"; PInt 5].

(** An integer among the patterns to zip. *)
Definition integer_zip_files : list pyval :=
  [PStr "a/*.txt"; PDict [(PStr "zip", PList [PStr "b/*.py"; PInt 5])]].

(** Two zip mappings, the first with an integer among its patterns. *)
Definition two_zip_files : list pyval :=
  [PDict [(PStr "zip", PList [PInt 5])];
   PStr "a/*.txt";
   PDict [(PStr "zip", PList [PStr "b/*.py"])]].

(** A zip mapping with a second key. *)
Definition extra_key_files : list pyval :=
  [PStr "a/*.txt";
   PDict [(PStr "name", PStr "sources"); (PStr "zip", PList [PStr "b/*.py"])]].

(** A pattern, and a pattern to zip, that match nothing. *)
Definition no_match_files : list pyval :=
  [PStr "a/*.txt"; PStr "a/*.md";
   PDict [(PStr "zip", PList [PStr "c/*"; PStr "b/*.py"])]].

(** Only the file list, the other four keys left out. *)
Definition only_files : list (pyval * pyval) :=
  [(PStr "files", PList example_files)].

Definition documents : list (string * pyval) :=
  [("example", with_files example_files);
   ("integer", with_files integer_files);
   ("integer zip", with_files integer_zip_files);
   ("two zip", with_files two_zip_files);
   ("only files", PDict only_files)].

Definition demo : Platform := platform documents.

Definition reader : ConfigReader.t := ConfigReader.init "hw".

Definition fresh (w : @World demo) : @state demo :=
  @Build_state demo w [] [].

(** The submitter [CanvasAssignment.init] builds in [hw], for the files
    [file_list]. *)
Definition submitter (file_list : list string) : CanvasAssignment.t :=
  {| CanvasAssignment.file_list := file_list;
     CanvasAssignment.zip_file_list := ["hw/b/x.py"];
     CanvasAssignment.assignment_id := PInt 12;
     CanvasAssignment.course_id := PInt 3;
     CanvasAssignment._canvas :=
       {| base_url := PStr "https://canvas.example.edu";
          access_token := PStr "secret" |};
     CanvasAssignment._requester :=
       {| requester_url := PStr "https://canvas.example.edu";
          requester_token := PStr "secret" |};
     CanvasAssignment.user_id := PInt 7 |}.

(** The submitter for the two text files, and the states its two uploads
    leave when started on the disk [w] with nothing sent yet. *)
Definition sub2 : CanvasAssignment.t := submitter ["hw/a/1.txt"; "hw/a/2.txt"].

Definition after1 (self : CanvasAssignment.t) (w : disk) : @state demo :=
  @after_upload demo self (fresh w) "hw/a/1.txt" (bump w).

Definition after2 (self : CanvasAssignment.t) (w : disk) : @state demo :=
  @after_upload demo self (after1 self w) "hw/a/2.txt" (bump (bump w)).

End Fixture.

(** ** The remaining methods of [CanvasAssignment] *)

Module CanvasAssignmentMethods.
Section Methods.
Context `{Platform}.

(** [CanvasAssignment.get_course]; the right-hand [get_course] is the
    client's. *)
Definition get_course (self : CanvasAssignment.t) : prog Course :=
  invoke (GetCourse (CanvasAssignment._canvas self)
            (CanvasAssignment.course_id self))
         (fun w => get_course w (CanvasAssignment._canvas self)
                     (CanvasAssignment.course_id self)).

(** [CanvasAssignment._zip_files]: the body is [pass]. *)
Definition _zip_files (self : CanvasAssignment.t) : prog pyval :=
  ret PNone.

End Methods.
End CanvasAssignmentMethods.

(** ** Further vocabulary *)

Section MoreVocabulary.
Context `{Platform}.

(** Values [for] cannot iterate over. *)
Definition not_iterable (v : pyval) : bool :=
  match v with
  | PNone | PBool _ | PInt _ => true
  | PStr _ | PList _ | PDict _ => false
  end.

(** A string entry that starts with the separator. *)
Definition absolute_pattern (v : pyval) : bool :=
  match v with
  | PStr s => startswith_sep s
  | _ => false
  end.

(** The submitter with another zip list. *)
Definition with_zip_file_list (self : CanvasAssignment.t)
  (zip_file_list : list string) : CanvasAssignment.t :=
  {| CanvasAssignment.file_list := CanvasAssignment.file_list self;
     CanvasAssignment.zip_file_list := zip_file_list;
     CanvasAssignment.assignment_id := CanvasAssignment.assignment_id self;
     CanvasAssignment.course_id := CanvasAssignment.course_id self;
     CanvasAssignment._canvas := CanvasAssignment._canvas self;
     CanvasAssignment._requester := CanvasAssignment._requester self;
     CanvasAssignment.user_id := CanvasAssignment.user_id self |}.

(** The lines [upload_file_to_assignment] prints for the files [paths]. *)
Definition upload_lines (self : CanvasAssignment.t) (paths : list string)
  : list string :=
  flat_map
    (fun path =>
       [upload_url_of (CanvasAssignment.course_id self)
          (CanvasAssignment.assignment_id self)
          (CanvasAssignment.user_id self);
        path])
    paths.

(** The calls [submit] makes once the uploads are over, as far as they
    got: the two lookups, then the submission. *)
Inductive closing_calls (self : CanvasAssignment.t) (n : nat)
  : list call -> Prop :=
| closing_none : closing_calls self n []
| closing_course :
    closing_calls self n
      [GetCourse (CanvasAssignment._canvas self)
         (CanvasAssignment.course_id self)]
| closing_assignment : forall course,
    closing_calls self n
      [GetCourse (CanvasAssignment._canvas self)
         (CanvasAssignment.course_id self);
       GetAssignment course (CanvasAssignment.assignment_id self)]
| closing_submit : forall course assignment ids,
    length ids = n ->
    closing_calls self n
      [GetCourse (CanvasAssignment._canvas self)
         (CanvasAssignment.course_id self);
       GetAssignment course (CanvasAssignment.assignment_id self);
       Submit assignment (CanvasAssignment.submission_of ids)].

End MoreVocabulary.

(** ** A concrete platform that can fail

    The disk and service of [Fixture], with switches for the failures of
    the client. *)

Module Faults.

Record faults : Type := {
  no_user : bool;
  no_course : bool;
  no_assignment : bool;
  broken : list string;
  no_id : list string;
  no_mapping : list string
}.

Definition none : faults :=
  {| no_user := false; no_course := false; no_assignment := false;
     broken := []; no_id := []; no_mapping := [] |}.

(** The documents of [Fixture], and the empty text, which stands for no
    value. *)
Definition documents : list (string * pyval) :=
  ("", PNone) :: Fixture.documents.

Definition start (f : faults) (w : Fixture.disk) (r : Requester)
  (url path : string) : result (bool * pyval) * Fixture.disk :=
  if Fixture.mem path (broken f)
  then (Raise (LibraryError "connection reset"), w)
  else if Fixture.mem path (no_id f)
  then (Ok (true, PDict [(PStr "url", PStr (url ++ "/" ++ path))]),
        Fixture.bump w)
  else if Fixture.mem path (no_mapping f)
  then (Ok (true, PNone), Fixture.bump w)
  else Fixture.start w r url path.

Definition platform (f : faults) : Platform :=
  {| World := Fixture.disk;
     Course := pyval;
     Assignment := pyval * pyval;
     os_path_isdir := fun w p => Fixture.mem p (Fixture.dirs w);
     os_path_isfile := fun w p => Fixture.mem p (map fst (Fixture.texts w));
     read_text := fun w p =>
       match Fixture.assoc p (Fixture.texts w) with
       | Some t => Ok t
       | None => Raise (LibraryError "cannot open")
       end;
     yaml_load := fun text =>
       match Fixture.assoc text documents with
       | Some v => Ok v
       | None => Raise (LibraryError "cannot parse")
       end;
     glob := Fixture.disk_glob;
     py_format := Fixture.format;
     get_current_user := fun w _ =>
       if no_user f then (Raise (LibraryError "unauthorized"), w)
       else (Ok {| id := PInt 7 |}, w);
     get_course := fun w _ cid =>
       if no_course f then (Raise (LibraryError "no such course"), w)
       else (Ok cid, w);
     course_get_assignment := fun w c aid =>
       if no_assignment f then (Raise (LibraryError "no such assignment"), w)
       else (Ok (c, aid), w);
     assignment_submit := fun w _ submission => (Ok submission, w);
     uploader_start := start f |}.

Definition fresh (f : faults) (w : Fixture.disk) : @state (platform f) :=
  @Build_state (platform f) w [] [].

(** A configuration with the five keys and [files] under "files". *)
Definition config_with (files : pyval) : pyval :=
  PDict [(PStr "assignment_id", PInt 12);
         (PStr "course_id", PInt 3);
         (PStr "canvas_url", PStr "https://canvas.example.edu");
         (PStr "files", files);
         (PStr "api_key", PStr "secret")].

(** The second text file cannot be sent, comes back without an
    identifier, comes back with no mapping at all. *)
Definition second_broken : faults :=
  {| no_user := false; no_course := false; no_assignment := false;
     broken := ["hw/a/2.txt"]; no_id := []; no_mapping := [] |}.

Definition second_no_id : faults :=
  {| no_user := false; no_course := false; no_assignment := false;
     broken := []; no_id := ["hw/a/2.txt"]; no_mapping := [] |}.

Definition second_no_mapping : faults :=
  {| no_user := false; no_course := false; no_assignment := false;
     broken := []; no_id := []; no_mapping := ["hw/a/2.txt"] |}.

(** The service does not know the user, the course, the assignment. *)
Definition unknown_user : faults :=
  {| no_user := true; no_course := false; no_assignment := false;
     broken := []; no_id := []; no_mapping := [] |}.

Definition unknown_course : faults :=
  {| no_user := false; no_course := true; no_assignment := false;
     broken := []; no_id := []; no_mapping := [] |}.

Definition unknown_assignment : faults :=
  {| no_user := false; no_course := false; no_assignment := true;
     broken := []; no_id := []; no_mapping := [] |}.

(** The states the uploads of the two text files leave. *)
Definition after1 (f : faults) (self : CanvasAssignment.t) (w : Fixture.disk)
  : @state (platform f) :=
  @after_upload (platform f) self (fresh f w) "hw/a/1.txt" (Fixture.bump w).

Definition after2 (f : faults) (self : CanvasAssignment.t) (w : Fixture.disk)
  : @state (platform f) :=
  @after_upload (platform f) self (after1 f self w) "hw/a/2.txt"
    (Fixture.bump (Fixture.bump w)).

(** The letter e with an acute accent: one character, two bytes. *)
Definition e_acute : string := String "195" (String "169" EmptyString).

(** Two words of two characters, and the path of the file named by the
    accented letter. *)
Definition n_e : string := ("n" ++ e_acute)%string.

Definition e_n : string := (e_acute ++ "n")%string.

Definition e_path : string := ("hw/" ++ e_acute)%string.

(** A directory with a file named by that letter, and one named [n]. *)
Definition accented : Fixture.disk :=
  Fixture.disk_of "example" ["hw/n"; e_path] [].

(** A disk with a file outside the directory. *)
Definition outside : Fixture.disk :=
  Fixture.disk_of "example" ["/srv/notes.txt"; "hw/a/1.txt"] [].

End Faults.

(** * Properties *)

(** ** Dictionaries *)

Lemma dict_get_Some_in (k : string) (d : list (pyval * pyval)) (v : pyval) :
  dict_get k d = Some v -> py_in k (map fst d) = true.
Proof.
  induction d as [|[k' x] d IH]; simpl; [discriminate|].
  destruct (key_is k k'); simpl; auto.
Qed.

Lemma py_in_dict_get (k : string) (d : list (pyval * pyval)) :
  py_in k (map fst d) = true -> exists v, dict_get k d = Some v.
Proof.
  induction d as [|[k' x] d IH]; simpl; [discriminate|].
  destruct (key_is k k'); simpl; eauto.
Qed.

Lemma value_in_FIRST_LEVEL_KEYS (k : string) :
  In k ConfigReader.FIRST_LEVEL_KEYS <-> exists opt, k = value opt.
Proof.
  unfold ConfigReader.FIRST_LEVEL_KEYS, list_ConfigOptions; simpl. split.
  - intros [E|[E|[E|[E|[E|[]]]]]]; subst;
      [exists AID|exists CID|exists URL|exists FILES|exists API_KEY]; reflexivity.
  - intros [[] ->]; simpl; tauto.
Qed.

(** ** The reader *)

Section ReaderFacts.
Context `{Platform}.
Import ConfigReader.

Lemma validate_loop_dict (d : list (pyval * pyval)) (keys bad_keys : list string) :
  validate_loop (PDict d) keys bad_keys = Ok (bad_keys ++ filter (absent d) keys).
Proof.
  revert bad_keys.
  induction keys as [|key keys IH]; intros bad_keys; simpl.
  - now rewrite app_nil_r.
  - unfold absent at 1. destruct (py_in key (map fst d)); simpl.
    + apply IH.
    + rewrite IH, <- app_assoc. reflexivity.
Qed.

Lemma validate_config_dict (d : list (pyval * pyval)) :
  __validate_config (PDict d) =
  match filter (absent d) FIRST_LEVEL_KEYS with
  | [] => Ok tt
  | bad_keys => Raise (ValueError (missing_keys_message bad_keys))
  end.
Proof.
  unfold __validate_config. rewrite validate_loop_dict. cbn [app rbind].
  destruct (filter (absent d) FIRST_LEVEL_KEYS); reflexivity.
Qed.

Lemma NoDup_FIRST_LEVEL_KEYS : NoDup FIRST_LEVEL_KEYS.
Proof.
  unfold FIRST_LEVEL_KEYS, list_ConfigOptions; simpl.
  repeat constructor; simpl; intuition discriminate.
Qed.

(** C7. [read] raises the error that says the path must be a directory
    when the path is not a directory; when it is one and the include file
    is not a file of it, [read] raises [FileNotFoundError] for the joined
    path.  Both hold whatever opening and parsing would have done: neither
    is reached. *)
Theorem read_checks_path_then_include_file (w : World) (self : t) :
  (os_path_isdir w (path self) = false ->
   read w self =
   Raise (ValueError ("'path' (" ++ path self ++ ") must be a directory.")))
  /\
  (os_path_isdir w (path self) = true ->
   os_path_isfile w (os_path_join (path self) (include_file self)) = false ->
   read w self =
   Raise (FileNotFoundError
            (os_path_join (path self) (include_file self) ++ " does not exist"))).
Proof.
  unfold read. split.
  - intros ->. reflexivity.
  - intros -> ->. reflexivity.
Qed.

(** C3. For a configuration that is a mapping, validation passes exactly
    when each of the five required keys is present.  When some are not,
    it raises the error whose message is the three lines of the source,
    ending in the formatted list of the keys that are required and absent,
    each once and no other; [read] then fails with that error, and goes on
    to resolve the file list when validation passes. *)
Theorem validate_config_required_keys (d : list (pyval * pyval)) :
  (__validate_config (PDict d) = Ok tt <->
   forall opt, dict_contains (PDict d) (value opt) = true)
  /\
  ((exists opt, dict_contains (PDict d) (value opt) = false) ->
   exists bad_keys,
     __validate_config (PDict d) =
       Raise (ValueError
                ("provided configuration " ++
                   String "010"
                     ("                                file is missing " ++
                      String "010"
                        ("                                required keys: " ++
                         py_format (PList (map PStr bad_keys))))))
     /\ NoDup bad_keys
     /\ forall k, In k bad_keys <->
                  (exists opt, k = value opt) /\ dict_contains (PDict d) k = false)
  /\
  (forall w self text,
     os_path_isdir w (path self) = true ->
     os_path_isfile w (os_path_join (path self) (include_file self)) = true ->
     read_text w (os_path_join (path self) (include_file self)) = Ok text ->
     yaml_load text = Ok (PDict d) ->
     read w self =
     match __validate_config (PDict d) with
     | Ok _ =>
         match _get_file_list w self (PDict d) with
         | Ok (file_list, zip_file_list) => Ok (PDict d, file_list, zip_file_list)
         | Raise e => Raise e
         end
     | Raise e => Raise e
     end).
Proof.
  assert (Hin : forall k, In k (filter (absent d) FIRST_LEVEL_KEYS) <->
                          (exists opt, k = value opt) /\
                          dict_contains (PDict d) k = false).
  { intros k. rewrite filter_In, value_in_FIRST_LEVEL_KEYS.
    unfold absent; simpl. rewrite negb_true_iff. tauto. }
  split; [|split].
  - rewrite validate_config_dict. split.
    + intros E opt.
      destruct (dict_contains (PDict d) (value opt)) eqn:C; [reflexivity|].
      assert (I : In (value opt) (filter (absent d) FIRST_LEVEL_KEYS))
        by (apply Hin; eauto).
      destruct (filter (absent d) FIRST_LEVEL_KEYS); [destruct I | discriminate].
    + intros A.
      destruct (filter (absent d) FIRST_LEVEL_KEYS) as [|k l] eqn:F; [reflexivity|].
      assert (I : In k (k :: l)) by (left; reflexivity).
      apply Hin in I. destruct I as [[opt ->] C].
      rewrite A in C. discriminate.
  - intros [opt C]. exists (filter (absent d) FIRST_LEVEL_KEYS).
    split; [|split].
    + rewrite validate_config_dict.
      assert (I : In (value opt) (filter (absent d) FIRST_LEVEL_KEYS))
        by (apply Hin; eauto).
      destruct (filter (absent d) FIRST_LEVEL_KEYS); [destruct I | reflexivity].
    + apply NoDup_filter, NoDup_FIRST_LEVEL_KEYS.
    + exact Hin.
  - intros w self text D F T Y. unfold read.
    rewrite D, F. simpl. rewrite T. simpl. rewrite Y. simpl.
    destruct (__validate_config (PDict d)) as [[]|e]; simpl; [|reflexivity].
    destruct (_get_file_list w self (PDict d)) as [[fl zl]|e]; reflexivity.
Qed.

(** *** The two loops of [_get_file_list] *)

Lemma files_loop_step_dict (w : World) (self : t) (d : list (pyval * pyval))
  (g0 : pyval) (files : list pyval) (g : pyval) (file_list : list string) :
  dict_get "zip" d = Some g0 ->
  files_loop w self (PDict d :: files) g file_list =
  files_loop w self files g0 file_list.
Proof.
  intros G. cbn [files_loop type_is_dict dict_contains andb py_getitem].
  rewrite (dict_get_Some_in _ _ _ G), G. reflexivity.
Qed.

Lemma files_loop_step_str (w : World) (self : t) (s : string)
  (files : list pyval) (g : pyval) (file_list : list string) :
  files_loop w self (PStr s :: files) g file_list =
  files_loop w self files g (file_list ++ glob w (os_path_join (path self) s)).
Proof. reflexivity. Qed.

Lemma files_loop_step_bad (w : World) (self : t) (entry : pyval)
  (files : list pyval) (g : pyval) (file_list : list string) :
  well_shaped entry = false ->
  files_loop w self (entry :: files) g file_list =
  Raise (ValueError "unexpected type detected in file list").
Proof.
  unfold well_shaped. intros B. apply orb_false_iff in B as [S D].
  cbn [files_loop]. rewrite D.
  destruct entry; try reflexivity. discriminate.
Qed.

Lemma well_shaped_cases (entry : pyval) :
  well_shaped entry = true ->
  (exists s, entry = PStr s) \/
  (exists d g, entry = PDict d /\ dict_get "zip" d = Some g).
Proof.
  unfold well_shaped. destruct entry; simpl; try discriminate.
  - intros _. left. eauto.
  - intros I. right. destruct (py_in_dict_get _ _ I) as [g G]. eauto.
Qed.

Lemma files_loop_app (w : World) (self : t) (pre post : list pyval)
  (g : pyval) (file_list : list string) :
  files_loop w self (pre ++ post) g file_list =
  match files_loop w self pre g file_list with
  | Ok (g', file_list') => files_loop w self post g' file_list'
  | Raise e => Raise e
  end.
Proof.
  revert g file_list.
  induction pre as [|entry pre IH]; intros g file_list; [reflexivity|].
  destruct (well_shaped entry) eqn:S.
  - destruct (well_shaped_cases _ S) as [[s ->]|[d [g0 [-> G]]]].
    + rewrite <- app_comm_cons, !files_loop_step_str. apply IH.
    + rewrite <- app_comm_cons, !(files_loop_step_dict _ _ _ _ _ _ _ G). apply IH.
  - rewrite <- app_comm_cons, !files_loop_step_bad by exact S. reflexivity.
Qed.

Lemma files_loop_well_shaped (w : World) (self : t) (entries : list pyval)
  (g : pyval) (file_list : list string) :
  forallb well_shaped entries = true ->
  files_loop w self entries g file_list =
  Ok (last_zip entries g, file_list ++ expand w self (strings_of entries)).
Proof.
  revert g file_list.
  induction entries as [|entry entries IH]; intros g file_list A.
  - simpl. now rewrite app_nil_r.
  - simpl in A. apply andb_true_iff in A as [S A].
    destruct (well_shaped_cases _ S) as [[s ->]|[d [g0 [-> G]]]].
    + rewrite files_loop_step_str, IH by exact A.
      simpl. unfold expand. rewrite <- !app_assoc. reflexivity.
    + rewrite (files_loop_step_dict _ _ _ _ _ _ _ G), IH by exact A.
      simpl. rewrite G. reflexivity.
Qed.

Lemma files_loop_malformed (w : World) (self : t) (entries : list pyval)
  (g : pyval) (file_list : list string) :
  existsb (fun e => negb (well_shaped e)) entries = true ->
  files_loop w self entries g file_list =
  Raise (ValueError "unexpected type detected in file list").
Proof.
  revert g file_list.
  induction entries as [|entry entries IH]; intros g file_list E;
    [discriminate|].
  simpl in E. destruct (well_shaped entry) eqn:S.
  - simpl in E.
    destruct (well_shaped_cases _ S) as [[s ->]|[d [g0 [-> G]]]].
    + rewrite files_loop_step_str. now apply IH.
    + rewrite (files_loop_step_dict _ _ _ _ _ _ _ G). now apply IH.
  - now apply files_loop_step_bad.
Qed.

Lemma zip_loop_app (w : World) (self : t) (pre post : list pyval)
  (zip_file_list : list string) :
  zip_loop w self (pre ++ post) zip_file_list =
  match zip_loop w self pre zip_file_list with
  | Ok zip_file_list' => zip_loop w self post zip_file_list'
  | Raise e => Raise e
  end.
Proof.
  revert zip_file_list.
  induction pre as [|entry pre IH]; intros zip_file_list; [reflexivity|].
  destruct entry; simpl; try reflexivity. apply IH.
Qed.

Lemma zip_loop_strings (w : World) (self : t) (patterns : list string)
  (zip_file_list : list string) :
  zip_loop w self (map PStr patterns) zip_file_list =
  Ok (zip_file_list ++ expand w self patterns).
Proof.
  revert zip_file_list.
  induction patterns as [|s patterns IH]; intros zip_file_list; simpl.
  - now rewrite app_nil_r.
  - rewrite IH. unfold expand. rewrite <- app_assoc. reflexivity.
Qed.

Lemma zip_loop_malformed (w : World) (self : t) (zs : list pyval)
  (zip_file_list : list string) :
  existsb (fun e => negb (type_is_str e)) zs = true ->
  zip_loop w self zs zip_file_list =
  Raise (ValueError "unexpected type detected in zip file list").
Proof.
  revert zip_file_list.
  induction zs as [|entry zs IH]; intros zip_file_list E; [discriminate|].
  destruct entry; simpl in *; try reflexivity. now apply IH.
Qed.

Lemma last_zip_app (l1 l2 : list pyval) (g : pyval) :
  last_zip (l1 ++ l2) g = last_zip l2 (last_zip l1 g).
Proof.
  revert g. induction l1 as [|entry l1 IH]; intros g; [reflexivity|].
  destruct entry; simpl; auto. destruct (dict_get "zip" d); auto.
Qed.

Lemma last_zip_strings (l : list pyval) (g : pyval) :
  forallb type_is_str l = true -> last_zip l g = g.
Proof.
  induction l as [|entry l IH]; intros A; [reflexivity|].
  destruct entry; simpl in *; try discriminate. auto.
Qed.

Lemma strings_well_shaped (l : list pyval) :
  forallb type_is_str l = true -> forallb well_shaped l = true.
Proof.
  induction l as [|entry l IH]; simpl; [reflexivity|].
  intros A. apply andb_true_iff in A as [S A].
  unfold well_shaped at 1. rewrite S. simpl. auto.
Qed.

Lemma get_file_list_well_shaped (w : World) (self : t) (config : pyval)
  (entries : list pyval) (zip_patterns : list string) :
  py_getitem config (value FILES) = Ok (PList entries) ->
  forallb well_shaped entries = true ->
  last_zip entries (PList []) = PList (map PStr zip_patterns) ->
  _get_file_list w self config =
  Ok (expand w self (strings_of entries), expand w self zip_patterns).
Proof.
  intros F A Z. unfold _get_file_list. rewrite F. cbn [rbind py_iter].
  rewrite files_loop_well_shaped by exact A. cbn [rbind app].
  rewrite Z. cbn [py_iter rbind]. rewrite zip_loop_strings. reflexivity.
Qed.

(** C4. For a configuration whose file list holds only strings and
    mappings with a key "zip", the value in effect under "zip" being a
    list of strings: the direct list is the matches of the string entries,
    each joined to the directory and expanded, in declared order; the zip
    list is the matches of the patterns under "zip", expanded the same way
    and kept apart. *)
Theorem get_file_list_expands_in_order (w : World) (self : t) (config : pyval)
  (entries : list pyval) (zip_patterns : list string) :
  py_getitem config (value FILES) = Ok (PList entries) ->
  forallb well_shaped entries = true ->
  last_zip entries (PList []) = PList (map PStr zip_patterns) ->
  _get_file_list w self config =
  Ok (flat_map (fun s => glob w (os_path_join (path self) s)) (strings_of entries),
      flat_map (fun s => glob w (os_path_join (path self) s)) zip_patterns).
Proof.
  intros F A Z. unfold _get_file_list. rewrite F. cbn [rbind py_iter].
  rewrite (files_loop_well_shaped w self entries (PList []) [] A).
  cbn [rbind app]. rewrite Z. cbn [py_iter rbind].
  rewrite (zip_loop_strings w self zip_patterns []).
  reflexivity.
Qed.

Lemma dict_well_shaped (d : list (pyval * pyval)) (g : pyval) :
  dict_get "zip" d = Some g -> well_shaped (PDict d) = true.
Proof.
  intros G. unfold well_shaped. simpl.
  exact (dict_get_Some_in _ _ _ G).
Qed.

Lemma strings_of_app (l1 l2 : list pyval) :
  strings_of (l1 ++ l2) = strings_of l1 ++ strings_of l2.
Proof. apply flat_map_app. Qed.

(** C6. In a file list with two mappings that have a key "zip" (and maybe
    more before the second), where only strings follow the second and its
    patterns are strings, the zip list is the expansion of the patterns of
    that last mapping alone.  Whatever an earlier mapping holds under "zip"
    leaves no trace, neither a match nor an error. *)
Theorem last_zip_entry_wins (w : World) (self : t) (config : pyval)
  (pre mid post : list pyval) (d1 d2 : list (pyval * pyval))
  (g1 : pyval) (patterns : list string) :
  py_getitem config (value FILES) =
    Ok (PList (pre ++ PDict d1 :: mid ++ PDict d2 :: post)) ->
  forallb well_shaped (pre ++ mid) = true ->
  dict_get "zip" d1 = Some g1 ->
  dict_get "zip" d2 = Some (PList (map PStr patterns)) ->
  forallb type_is_str post = true ->
  _get_file_list w self config =
  Ok (expand w self (strings_of (pre ++ mid ++ post)), expand w self patterns).
Proof.
  intros F A G1 G2 P.
  rewrite forallb_app in A. apply andb_true_iff in A as [Apre Amid].
  rewrite (get_file_list_well_shaped w self config _ patterns F).
  - rewrite !strings_of_app. simpl. rewrite !strings_of_app. reflexivity.
  - rewrite forallb_app. simpl. rewrite forallb_app. simpl.
    rewrite Apre, Amid, (dict_well_shaped _ _ G1), (dict_well_shaped _ _ G2).
    simpl. now apply strings_well_shaped.
  - rewrite last_zip_app. simpl. rewrite G1, last_zip_app. simpl. rewrite G2.
    now apply last_zip_strings.
Qed.

(** C8. A mapping entry that has the key "zip" next to other keys is
    taken as a zip group: the file lists come out as if the entry were the
    mapping with the single key "zip" and the same value, and with strings
    around it and strings under "zip" both lists are returned. *)
Theorem zip_entry_extra_keys_ignored (w : World) (self : t)
  (config config' : pyval) (pre post : list pyval)
  (d : list (pyval * pyval)) (g : pyval) :
  dict_get "zip" d = Some g ->
  py_getitem config (value FILES) = Ok (PList (pre ++ PDict d :: post)) ->
  py_getitem config' (value FILES) =
    Ok (PList (pre ++ PDict [(PStr "zip", g)] :: post)) ->
  _get_file_list w self config = _get_file_list w self config'
  /\
  (forall patterns,
     forallb type_is_str (pre ++ post) = true ->
     g = PList (map PStr patterns) ->
     _get_file_list w self config =
     Ok (expand w self (strings_of (pre ++ post)), expand w self patterns)).
Proof.
  intros G F F'. split.
  - unfold _get_file_list. rewrite F, F'. cbn [rbind py_iter].
    rewrite !files_loop_app.
    destruct (files_loop w self pre (PList []) []) as [[g' fl']|e];
      [|reflexivity].
    rewrite (files_loop_step_dict _ _ _ _ _ _ _ G).
    rewrite (files_loop_step_dict w self [(PStr "zip", g)] g); reflexivity.
  - intros patterns S ->.
    rewrite forallb_app in S. apply andb_true_iff in S as [Spre Spost].
    rewrite (get_file_list_well_shaped w self config _ patterns F).
    + rewrite !strings_of_app. reflexivity.
    + rewrite forallb_app. simpl.
      rewrite (strings_well_shaped _ Spre), (dict_well_shaped _ _ G).
      simpl. now apply strings_well_shaped.
    + rewrite last_zip_app. simpl. rewrite G. now apply last_zip_strings.
Qed.

(** *** Entries that are refused, patterns that match nothing *)

Lemma get_file_list_malformed_entry (w : World) (self : t) (config : pyval)
  (entries : list pyval) :
  py_getitem config (value FILES) = Ok (PList entries) ->
  existsb (fun e => negb (well_shaped e)) entries = true ->
  _get_file_list w self config =
  Raise (ValueError "unexpected type detected in file list").
Proof.
  intros F E. unfold _get_file_list. rewrite F. cbn [rbind py_iter].
  rewrite files_loop_malformed by exact E. reflexivity.
Qed.

Lemma get_file_list_malformed_zip_entry (w : World) (self : t)
  (config : pyval) (entries zs : list pyval) :
  py_getitem config (value FILES) = Ok (PList entries) ->
  forallb well_shaped entries = true ->
  last_zip entries (PList []) = PList zs ->
  existsb (fun e => negb (type_is_str e)) zs = true ->
  _get_file_list w self config =
  Raise (ValueError "unexpected type detected in zip file list").
Proof.
  intros F A Z E. unfold _get_file_list. rewrite F. cbn [rbind py_iter].
  rewrite files_loop_well_shaped by exact A. cbn [rbind].
  rewrite Z. cbn [rbind py_iter].
  rewrite zip_loop_malformed by exact E. reflexivity.
Qed.

Lemma files_loop_default (w : World) (self : t) (l : list pyval)
  (g g0 : pyval) (file_list : list string) :
  files_loop w self l g file_list =
  match files_loop w self l g0 file_list with
  | Ok (_, file_list') => Ok (last_zip l g, file_list')
  | Raise e => Raise e
  end.
Proof.
  revert g g0 file_list.
  induction l as [|entry l IH]; intros g g0 file_list; [reflexivity|].
  destruct (well_shaped entry) eqn:S.
  - destruct (well_shaped_cases _ S) as [[s ->]|[d [g1 [-> G]]]].
    + rewrite !files_loop_step_str. apply IH.
    + rewrite !(files_loop_step_dict _ _ _ _ _ _ _ G).
      simpl last_zip. rewrite G. apply IH.
  - rewrite !files_loop_step_bad by exact S. reflexivity.
Qed.

Lemma last_zip_cases (l : list pyval) :
  (forall g, last_zip l g = g) \/ (exists x, forall g, last_zip l g = x).
Proof.
  induction l as [|entry l IH]; [left; reflexivity|].
  destruct entry; simpl; auto.
  destruct (dict_get "zip" d) as [g1|]; auto.
  right. exists (last_zip l g1). reflexivity.
Qed.

Lemma get_file_list_skip_pattern (w : World) (self : t)
  (config config' : pyval) (pre post : list pyval) (s : string) :
  glob w (os_path_join (path self) s) = [] ->
  py_getitem config (value FILES) = Ok (PList (pre ++ PStr s :: post)) ->
  py_getitem config' (value FILES) = Ok (PList (pre ++ post)) ->
  _get_file_list w self config = _get_file_list w self config'.
Proof.
  intros E F F'. unfold _get_file_list. rewrite F, F'. cbn [rbind py_iter].
  rewrite !files_loop_app.
  destruct (files_loop w self pre (PList []) []) as [[g' fl']|e];
    [|reflexivity].
  rewrite files_loop_step_str, E, app_nil_r. reflexivity.
Qed.

Lemma zip_loop_skip_pattern (w : World) (self : t) (zpre zpost : list pyval)
  (s : string) (zip_file_list : list string) :
  glob w (os_path_join (path self) s) = [] ->
  zip_loop w self (zpre ++ PStr s :: zpost) zip_file_list =
  zip_loop w self (zpre ++ zpost) zip_file_list.
Proof.
  intros E. rewrite !zip_loop_app.
  destruct (zip_loop w self zpre zip_file_list) as [acc|e]; [|reflexivity].
  simpl. rewrite E, app_nil_r. reflexivity.
Qed.

Lemma get_file_list_skip_zip_pattern (w : World) (self : t)
  (config config' : pyval) (pre post : list pyval)
  (d d' : list (pyval * pyval)) (zpre zpost : list pyval) (s : string) :
  glob w (os_path_join (path self) s) = [] ->
  dict_get "zip" d = Some (PList (zpre ++ PStr s :: zpost)) ->
  dict_get "zip" d' = Some (PList (zpre ++ zpost)) ->
  py_getitem config (value FILES) = Ok (PList (pre ++ PDict d :: post)) ->
  py_getitem config' (value FILES) = Ok (PList (pre ++ PDict d' :: post)) ->
  _get_file_list w self config = _get_file_list w self config'.
Proof.
  intros E G G' F F'. unfold _get_file_list. rewrite F, F'.
  cbn [rbind py_iter]. rewrite !files_loop_app.
  destruct (files_loop w self pre (PList []) []) as [[g' fl']|e];
    [|reflexivity].
  rewrite (files_loop_step_dict _ _ _ _ _ _ _ G),
          (files_loop_step_dict _ _ _ _ _ _ _ G').
  rewrite (files_loop_default w self post (PList (zpre ++ PStr s :: zpost)) (PList [])),
          (files_loop_default w self post (PList (zpre ++ zpost)) (PList [])).
  destruct (files_loop w self post (PList []) fl') as [[g'' fl'']|e];
    [|reflexivity].
  cbn [rbind].
  destruct (last_zip_cases post) as [Same|[x Fixed]].
  - rewrite !Same. cbn [py_iter rbind].
    rewrite zip_loop_skip_pattern by exact E. reflexivity.
  - rewrite !Fixed. reflexivity.
Qed.

End ReaderFacts.

(** ** The submitter *)

Section SubmitFacts.
Context `{Platform}.
Import CanvasAssignment.

Lemma upload_absent_file (requester : Requester)
  (course_id assn_id user_id : pyval) (path : string) (s : state) :
  os_path_isfile (world s) path = false ->
  upload_file_to_assignment requester course_id assn_id user_id path s =
  (Raise (ValueError "'path' must be a valid path to a file."), s).
Proof.
  intros F. unfold upload_file_to_assignment, bind, look. rewrite F.
  reflexivity.
Qed.

Lemma upload_present_file (self : t) (path : string) (s : state)
  (r : result (bool * pyval)) (w' : World) :
  os_path_isfile (world s) path = true ->
  uploader_start (world s) (_requester self)
    (upload_url_of (course_id self) (assignment_id self) (user_id self)) path
  = (r, w') ->
  upload_file_to_assignment (_requester self) (course_id self)
    (assignment_id self) (user_id self) path s =
  (r, after_upload self s path w').
Proof.
  intros F U. destruct s as [w c o]. cbn [world] in F, U.
  unfold upload_file_to_assignment, after_upload, bind, look, print, invoke.
  cbn [world calls stdout]. rewrite F. cbn [negb world calls stdout].
  rewrite U. reflexivity.
Qed.

Lemma upload_loop_uploaded (self : t) (s s' : state)
  (paths : list string) (ids : list pyval) :
  uploaded self s paths ids s' ->
  forall rest file_ids,
    upload_loop self (paths ++ rest) file_ids s =
    upload_loop self rest (file_ids ++ ids) s'.
Proof.
  induction 1 as [s|s path paths response file_id w' ids s' F U I _ IH];
    intros rest file_ids.
  - now rewrite app_nil_r.
  - rewrite <- app_comm_cons. cbn [upload_loop]. unfold bind at 1.
    rewrite (upload_present_file self path s _ w' F U).
    cbn [negb]. unfold bind at 1, look at 1. rewrite I.
    rewrite IH, <- app_assoc. reflexivity.
Qed.

Lemma uploaded_calls (self : t) (s s' : state)
  (paths : list string) (ids : list pyval) :
  uploaded self s paths ids s' ->
  calls s' = calls s ++ map (upload_call self) paths
  /\ length ids = length paths.
Proof.
  induction 1 as [s|s path paths response file_id w' ids s' F U I _ [IHc IHl]].
  - now rewrite app_nil_r.
  - split.
    + rewrite IHc. cbn [after_upload calls map]. now rewrite <- app_assoc.
    + simpl. now rewrite IHl.
Qed.

Lemma filter_submit_uploads (self : t) (paths : list string) :
  filter is_submit (map (upload_call self) paths) = [].
Proof. induction paths; simpl; auto. Qed.

Lemma init_reader_raises (path include_file : string) (s : state) (e : exn) :
  ConfigReader.read (world s)
    {| ConfigReader.path := path; ConfigReader.include_file := include_file |}
  = Raise e ->
  init path include_file s = (Raise e, s).
Proof.
  intros R. unfold init, bind, look. rewrite R. reflexivity.
Qed.

(** C1, as the code has it.  When the upload of every file of the list,
    in list order, finds the file, reports success and returns an
    identifier, and the lookups of the course and of the assignment return,
    [submit] sends the uploads in list order, then looks the
    assignment up and sends one submission: the mapping of "file_ids" to
    the identifiers, in the order of the files, and of "submission_type" to
    "online_upload".  What the service answers is what [submit] returns. *)
Theorem submit_sends_uploaded_ids (self : t) (s s1 : state)
  (ids : list pyval) (course : Course) (assignment : Assignment)
  (answer : result pyval) (w2 w3 w4 : World) :
  uploaded self s (file_list self) ids s1 ->
  get_course (world s1) (_canvas self) (course_id self) = (Ok course, w2) ->
  course_get_assignment w2 course (assignment_id self) = (Ok assignment, w3) ->
  assignment_submit w3 assignment (submission_of ids) = (answer, w4) ->
  let submission :=
    PDict [(PStr "file_ids", PList ids);
           (PStr "submission_type", PStr "online_upload")] in
  exists s',
    submit self s = (answer, s')
    /\ length ids = length (file_list self)
    /\ calls s' =
       calls s ++ map (upload_call self) (file_list self) ++
       [GetCourse (_canvas self) (course_id self);
        GetAssignment course (assignment_id self);
        Submit assignment submission]
    /\ filter is_submit (calls s') =
       filter is_submit (calls s) ++ [Submit assignment submission].
Proof.
  intros U C A S submission.
  destruct (uploaded_calls _ _ _ _ _ U) as [Uc Ul].
  eexists. split; [|split; [exact Ul|]].
  - unfold submit. unfold bind at 1.
    rewrite <- (app_nil_r (file_list self)), (upload_loop_uploaded _ _ _ _ _ U).
    cbn [upload_loop ret app].
    unfold get_assignment, bind, invoke. rewrite C.
    cbn [world calls stdout]. rewrite A. cbn [world calls stdout].
    rewrite S. reflexivity.
  - cbn [calls]. rewrite Uc. split.
    + rewrite <- !app_assoc. reflexivity.
    + rewrite <- !app_assoc, !filter_app, filter_submit_uploads. reflexivity.
Qed.

(** C2. When the uploads of the files before [path] went through and the
    upload of [path] reports failure, [submit] raises the I/O error that
    names [path]; the calls made are the uploads of the files up to and
    including [path], in list order, and no submission. *)
Theorem submit_stops_at_failed_upload (self : t) (s s1 : state)
  (pre post : list string) (path : string) (ids : list pyval)
  (response : pyval) (w2 : World) :
  file_list self = pre ++ path :: post ->
  uploaded self s pre ids s1 ->
  os_path_isfile (world s1) path = true ->
  uploader_start (world s1) (_requester self)
    (upload_url_of (course_id self) (assignment_id self) (user_id self)) path
  = (Ok (false, response), w2) ->
  exists s',
    submit self s = (Raise (IOError ("Failed to upload " ++ path ++ ".")), s')
    /\ calls s' =
       calls s ++ map (upload_call self) pre ++ [upload_call self path]
    /\ filter is_submit (calls s') = filter is_submit (calls s).
Proof.
  intros L U F R.
  destruct (uploaded_calls _ _ _ _ _ U) as [Uc _].
  exists (after_upload self s1 path w2). split.
  - unfold submit. unfold bind at 1.
    rewrite L, (upload_loop_uploaded _ _ _ _ _ U).
    cbn [upload_loop]. unfold bind at 1.
    rewrite (upload_present_file self path s1 _ w2 F R). reflexivity.
  - cbn [after_upload calls]. rewrite Uc. split.
    + now rewrite <- app_assoc.
    + rewrite !filter_app, filter_submit_uploads. simpl.
      now rewrite !app_nil_r.
Qed.

(** C10. [upload_file_to_assignment] raises [ValueError] when its path is
    not an existing regular file, and leaves everything as it was: nothing
    is sent, nothing printed.  So [submit], once the files before such a
    path are uploaded, stops with that error in the state those uploads
    left, the upload of that path never sent. *)
Theorem upload_requires_regular_file :
  (forall requester course_id assn_id user_id path (s : state),
     os_path_isfile (world s) path = false ->
     upload_file_to_assignment requester course_id assn_id user_id path s =
     (Raise (ValueError "'path' must be a valid path to a file."), s))
  /\
  (forall (self : t) (s s1 : state) pre path post ids,
     file_list self = pre ++ path :: post ->
     uploaded self s pre ids s1 ->
     os_path_isfile (world s1) path = false ->
     submit self s =
     (Raise (ValueError "'path' must be a valid path to a file."), s1)
     /\ calls s1 = calls s ++ map (upload_call self) pre).
Proof.
  split.
  - exact upload_absent_file.
  - intros self s s1 pre path post ids L U F. split.
    + unfold submit. unfold bind at 1.
      rewrite L, (upload_loop_uploaded _ _ _ _ _ U).
      cbn [upload_loop]. unfold bind at 1.
      rewrite upload_absent_file by exact F. reflexivity.
    + exact (proj1 (uploaded_calls _ _ _ _ _ U)).
Qed.

(** C9, as the code has it.  A pattern that matches nothing can be struck
    from the file list, and from the patterns under "zip", without changing
    what the reader returns: it adds no path and raises nothing.  With an
    empty direct list, and the lookups of the course and of the assignment
    returning, [submit] uploads nothing and sends the submission whose
    "file_ids" is the empty list. *)
Theorem empty_match_is_no_error :
  (forall w (self : ConfigReader.t) config config' pre post s,
     glob w (os_path_join (ConfigReader.path self) s) = [] ->
     py_getitem config (value FILES) = Ok (PList (pre ++ PStr s :: post)) ->
     py_getitem config' (value FILES) = Ok (PList (pre ++ post)) ->
     ConfigReader._get_file_list w self config =
     ConfigReader._get_file_list w self config')
  /\
  (forall w (self : ConfigReader.t) config config' pre post d d' zpre zpost s,
     glob w (os_path_join (ConfigReader.path self) s) = [] ->
     dict_get "zip" d = Some (PList (zpre ++ PStr s :: zpost)) ->
     dict_get "zip" d' = Some (PList (zpre ++ zpost)) ->
     py_getitem config (value FILES) = Ok (PList (pre ++ PDict d :: post)) ->
     py_getitem config' (value FILES) = Ok (PList (pre ++ PDict d' :: post)) ->
     ConfigReader._get_file_list w self config =
     ConfigReader._get_file_list w self config')
  /\
  (forall (self : t) (s : state) course assignment answer w2 w3 w4,
     file_list self = [] ->
     get_course (world s) (_canvas self) (course_id self) = (Ok course, w2) ->
     course_get_assignment w2 course (assignment_id self) = (Ok assignment, w3) ->
     assignment_submit w3 assignment (submission_of []) = (answer, w4) ->
     submit self s =
     (answer,
      {| world := w4;
         calls := calls s ++
                  [GetCourse (_canvas self) (course_id self);
                   GetAssignment course (assignment_id self);
                   Submit assignment
                     (PDict [(PStr "file_ids", PList []);
                             (PStr "submission_type", PStr "online_upload")])];
         stdout := stdout s |})).
Proof.
  split; [|split].
  - intros w self config config' pre post s.
    apply get_file_list_skip_pattern.
  - intros w self config config' pre post d d' zpre zpost s.
    apply get_file_list_skip_zip_pattern.
  - intros self s course assignment answer w2 w3 w4 L C A S.
    unfold submit. rewrite L. unfold bind at 1. cbn [upload_loop ret].
    unfold get_assignment, bind, invoke. rewrite C.
    cbn [world calls stdout]. rewrite A. cbn [world calls stdout].
    rewrite S. rewrite <- !app_assoc. reflexivity.
Qed.

End SubmitFacts.

(** ** Malformed entries *)

Section MalformedEntries.
Context `{Platform}.

Lemma read_file_list_raises (w : World) (self : ConfigReader.t)
  (text : string) (config : pyval) (e : exn) :
  os_path_isdir w (ConfigReader.path self) = true ->
  os_path_isfile w
    (os_path_join (ConfigReader.path self) (ConfigReader.include_file self))
  = true ->
  read_text w
    (os_path_join (ConfigReader.path self) (ConfigReader.include_file self))
  = Ok text ->
  yaml_load text = Ok config ->
  ConfigReader.__validate_config config = Ok tt ->
  ConfigReader._get_file_list w self config = Raise e ->
  ConfigReader.read w self = Raise e.
Proof.
  intros D F T Y V G. unfold ConfigReader.read.
  rewrite D, F. cbn [negb]. rewrite T. cbn [rbind]. rewrite Y. cbn [rbind].
  rewrite V. cbn [rbind]. rewrite G. reflexivity.
Qed.

(** C5, as the code has it.  With the include file read and validated:
    a file list with an entry that is neither a string nor a mapping with
    a key "zip" makes [read] raise the file-list error; a file list of
    such entries only, whose last mapping holds under "zip" a list with an
    entry that is not a string, makes [read] raise the zip-list error.
    Either way the construction of the submitter raises the same error in
    the state it started in: no call was made. *)
Theorem malformed_entry_raises_before_any_call (s : state)
  (self : ConfigReader.t) (text : string) (config : pyval)
  (entries : list pyval) :
  os_path_isdir (world s) (ConfigReader.path self) = true ->
  os_path_isfile (world s)
    (os_path_join (ConfigReader.path self) (ConfigReader.include_file self))
  = true ->
  read_text (world s)
    (os_path_join (ConfigReader.path self) (ConfigReader.include_file self))
  = Ok text ->
  yaml_load text = Ok config ->
  ConfigReader.__validate_config config = Ok tt ->
  py_getitem config (value FILES) = Ok (PList entries) ->
  (existsb (fun e => negb (well_shaped e)) entries = true ->
   ConfigReader.read (world s) self =
     Raise (ValueError "unexpected type detected in file list")
   /\ CanvasAssignment.init (ConfigReader.path self)
        (ConfigReader.include_file self) s =
      (Raise (ValueError "unexpected type detected in file list"), s))
  /\
  (forall zs,
     forallb well_shaped entries = true ->
     last_zip entries (PList []) = PList zs ->
     existsb (fun e => negb (type_is_str e)) zs = true ->
     ConfigReader.read (world s) self =
       Raise (ValueError "unexpected type detected in zip file list")
     /\ CanvasAssignment.init (ConfigReader.path self)
          (ConfigReader.include_file self) s =
        (Raise (ValueError "unexpected type detected in zip file list"), s)).
Proof.
  intros D F T Y V L.
  assert (I : forall e, ConfigReader._get_file_list (world s) self config = Raise e ->
                        ConfigReader.read (world s) self = Raise e /\
                        CanvasAssignment.init (ConfigReader.path self)
                          (ConfigReader.include_file self) s = (Raise e, s)).
  { intros e G.
    pose proof (read_file_list_raises _ _ _ _ _ D F T Y V G) as R.
    split; [exact R|]. apply init_reader_raises.
    destruct self; exact R. }
  split.
  - intros E. apply I. now apply get_file_list_malformed_entry with entries.
  - intros zs A Z E. apply I.
    now apply get_file_list_malformed_zip_entry with entries zs.
Qed.

End MalformedEntries.

(** ** Runs on the concrete platform *)

Section Runs.
Import Fixture.
#[local] Existing Instance demo.

Example read_example :
  ConfigReader.read hw reader =
  Ok (with_files example_files, ["hw/a/1.txt"; "hw/a/2.txt"], ["hw/b/x.py"]).
Proof. reflexivity. Qed.

Example validate_only_files :
  ConfigReader.__validate_config (PDict only_files) =
  Raise (ValueError
           (ConfigReader.missing_keys_message
              ["assignment_id"; "course_id"; "canvas_url"; "api_key"])).
Proof. reflexivity. Qed.

Example validate_only_files_text :
  ConfigReader.__validate_config (PDict only_files) =
  Raise (ValueError
           ("provided configuration " ++
            String "010"
              ("                                file is missing " ++
               String "010"
                 ("                                required keys: " ++
                  "['assignment_id', 'course_id', 'canvas_url', 'api_key']")))).
Proof. reflexivity. Qed.

Example format_missing_keys :
  py_format (PList (map PStr ["assignment_id"; "api_key"])) =
  "['assignment_id', 'api_key']".
Proof. reflexivity. Qed.

Example read_two_zip :
  ConfigReader.read (disk_of "two zip" names []) reader =
  Ok (with_files two_zip_files, ["hw/a/1.txt"; "hw/a/2.txt"], ["hw/b/x.py"]).
Proof. reflexivity. Qed.

Lemma read_checks_path_then_include_file_witness :
  (os_path_isdir hw "nowhere" = false /\
   ConfigReader.read hw (ConfigReader.init "nowhere") =
   Raise (ValueError "'path' (nowhere) must be a directory."))
  /\
  (os_path_isdir hw "hw/a" = true /\
   os_path_isfile hw "hw/a/.canvas-include.yml" = false /\
   ConfigReader.read hw (ConfigReader.init "hw/a") =
   Raise (FileNotFoundError "hw/a/.canvas-include.yml does not exist")).
Proof.
  split.
  - split; [reflexivity|].
    exact (proj1 (read_checks_path_then_include_file hw (ConfigReader.init "nowhere"))
                 eq_refl).
  - split; [reflexivity|split; [reflexivity|]].
    exact (proj2 (read_checks_path_then_include_file hw (ConfigReader.init "hw/a"))
                 eq_refl eq_refl).
Defined.

Lemma validate_config_required_keys_witness :
  (exists opt, dict_contains (PDict only_files) (value opt) = false)
  /\
  exists bad_keys,
    ConfigReader.__validate_config (PDict only_files) =
      Raise (ValueError
               ("provided configuration " ++
                   String "010"
                     ("                                file is missing " ++
                      String "010"
                        ("                                required keys: " ++
                         py_format (PList (map PStr bad_keys))))))
    /\ NoDup bad_keys
    /\ forall k, In k bad_keys <->
                 (exists opt, k = value opt) /\
                 dict_contains (PDict only_files) k = false.
Proof.
  split.
  - exists AID. reflexivity.
  - apply (proj1 (proj2 (validate_config_required_keys only_files))).
    exists AID. reflexivity.
Defined.

Lemma get_file_list_expands_in_order_witness :
  py_getitem (with_files example_files) (value FILES) = Ok (PList example_files)
  /\ forallb well_shaped example_files = true
  /\ last_zip example_files (PList []) = PList (map PStr ["b/*.py"])
  /\ ConfigReader._get_file_list hw reader (with_files example_files) =
     Ok (["hw/a/1.txt"; "hw/a/2.txt"], ["hw/b/x.py"]).
Proof.
  split; [reflexivity|split; [reflexivity|split; [reflexivity|]]].
  exact (get_file_list_expands_in_order hw reader (with_files example_files)
           example_files ["b/*.py"] eq_refl eq_refl eq_refl).
Defined.

Lemma last_zip_entry_wins_witness :
  py_getitem (with_files two_zip_files) (value FILES) =
    Ok (PList ([] ++ PDict [(PStr "zip", PList [PInt 5])]
                  :: [PStr "a/*.txt"]
                  ++ PDict [(PStr "zip", PList [PStr "b/*.py"])] :: []))
  /\ forallb well_shaped ([] ++ [PStr "a/*.txt"]) = true
  /\ ConfigReader._get_file_list hw reader (with_files two_zip_files) =
     Ok (["hw/a/1.txt"; "hw/a/2.txt"], ["hw/b/x.py"]).
Proof.
  split; [reflexivity|split; [reflexivity|]].
  exact (last_zip_entry_wins hw reader (with_files two_zip_files)
           [] [PStr "a/*.txt"] []
           [(PStr "zip", PList [PInt 5])] [(PStr "zip", PList [PStr "b/*.py"])]
           (PList [PInt 5]) ["b/*.py"]
           eq_refl eq_refl eq_refl eq_refl eq_refl).
Defined.

Lemma zip_entry_extra_keys_ignored_witness :
  dict_get "zip" [(PStr "name", PStr "sources");
                  (PStr "zip", PList [PStr "b/*.py"])]
  = Some (PList [PStr "b/*.py"])
  /\ ConfigReader._get_file_list hw reader (with_files extra_key_files) =
     ConfigReader._get_file_list hw reader (with_files example_files)
  /\ ConfigReader._get_file_list hw reader (with_files extra_key_files) =
     Ok (["hw/a/1.txt"; "hw/a/2.txt"], ["hw/b/x.py"]).
Proof.
  split; [reflexivity|].
  pose proof (zip_entry_extra_keys_ignored hw reader
                (with_files extra_key_files) (with_files example_files)
                [PStr "a/*.txt"] []
                [(PStr "name", PStr "sources");
                 (PStr "zip", PList [PStr "b/*.py"])]
                (PList [PStr "b/*.py"]) eq_refl eq_refl eq_refl) as [E A].
  split; [exact E|].
  exact (A ["b/*.py"] eq_refl eq_refl).
Defined.

Lemma submit_sends_uploaded_ids_witness :
  uploaded sub2 (fresh hw) (CanvasAssignment.file_list sub2)
    [PInt 100; PInt 101] (after2 sub2 hw)
  /\
  exists s',
    CanvasAssignment.submit sub2 (fresh hw) =
      (Ok (PDict [(PStr "file_ids", PList [PInt 100; PInt 101]);
                  (PStr "submission_type", PStr "online_upload")]), s')
    /\ calls s' =
       [upload_call sub2 "hw/a/1.txt"; upload_call sub2 "hw/a/2.txt";
        GetCourse (CanvasAssignment._canvas sub2) (PInt 3);
        GetAssignment (PInt 3) (PInt 12);
        Submit (PInt 3, PInt 12)
          (PDict [(PStr "file_ids", PList [PInt 100; PInt 101]);
                  (PStr "submission_type", PStr "online_upload")])].
Proof.
  assert (U : uploaded sub2 (fresh hw) (CanvasAssignment.file_list sub2)
                [PInt 100; PInt 101] (after2 sub2 hw)).
  { eapply uploaded_cons; [reflexivity|reflexivity|reflexivity|].
    eapply uploaded_cons; [reflexivity|reflexivity|reflexivity|].
    apply uploaded_nil. }
  split; [exact U|].
  destruct (submit_sends_uploaded_ids sub2 (fresh hw) (after2 sub2 hw)
              [PInt 100; PInt 101] (PInt 3) (PInt 3, PInt 12)
              (Ok (CanvasAssignment.submission_of [PInt 100; PInt 101]))
              (bump (bump hw)) (bump (bump hw)) (bump (bump hw))
              U eq_refl eq_refl eq_refl) as [s' [R [_ [C _]]]].
  exists s'. split; [exact R|exact C].
Defined.

Lemma submit_stops_at_failed_upload_witness :
  let w := disk_of "example" names ["hw/a/2.txt"] in
  CanvasAssignment.file_list sub2 = ["hw/a/1.txt"] ++ "hw/a/2.txt" :: []
  /\ uploaded sub2 (fresh w) ["hw/a/1.txt"] [PInt 100] (after1 sub2 w)
  /\ os_path_isfile (world (after1 sub2 w)) "hw/a/2.txt" = true
  /\ exists s',
       CanvasAssignment.submit sub2 (fresh w) =
         (Raise (IOError "Failed to upload hw/a/2.txt."), s')
       /\ calls s' =
          [upload_call sub2 "hw/a/1.txt"; upload_call sub2 "hw/a/2.txt"]
       /\ filter is_submit (calls s') = [].
Proof.
  intros w.
  assert (U : uploaded sub2 (fresh w) ["hw/a/1.txt"] [PInt 100] (after1 sub2 w)).
  { eapply uploaded_cons; [reflexivity|reflexivity|reflexivity|].
    apply uploaded_nil. }
  split; [reflexivity|split; [exact U|split; [reflexivity|]]].
  exact (submit_stops_at_failed_upload sub2 (fresh w) (after1 sub2 w)
           ["hw/a/1.txt"] [] "hw/a/2.txt" [PInt 100]
           (PDict [(PStr "error", PStr "rejected")]) (bump w)
           eq_refl U eq_refl eq_refl).
Defined.

Lemma upload_requires_regular_file_witness :
  (os_path_isfile (world (fresh hw)) "hw/b" = false /\
   upload_file_to_assignment (CanvasAssignment._requester sub2)
     (PInt 3) (PInt 12) (PInt 7) "hw/b" (fresh hw) =
   (Raise (ValueError "'path' must be a valid path to a file."), fresh hw))
  /\
  (let self := submitter ["hw/a/1.txt"; "hw/gone.txt"; "hw/a/2.txt"] in
   uploaded self (fresh hw) ["hw/a/1.txt"] [PInt 100] (after1 self hw)
   /\ os_path_isfile (world (after1 self hw)) "hw/gone.txt" = false
   /\ CanvasAssignment.submit self (fresh hw) =
      (Raise (ValueError "'path' must be a valid path to a file."),
       after1 self hw)
   /\ calls (after1 self hw) = [upload_call self "hw/a/1.txt"]).
Proof.
  split.
  - split; [reflexivity|].
    exact (proj1 upload_requires_regular_file
             (CanvasAssignment._requester sub2) (PInt 3) (PInt 12) (PInt 7)
             "hw/b" (fresh hw) eq_refl).
  - intros self.
    assert (U : uploaded self (fresh hw) ["hw/a/1.txt"] [PInt 100]
                  (after1 self hw)).
    { eapply uploaded_cons; [reflexivity|reflexivity|reflexivity|].
      apply uploaded_nil. }
    split; [exact U|split; [reflexivity|]].
    exact (proj2 upload_requires_regular_file self (fresh hw) (after1 self hw)
             ["hw/a/1.txt"] "hw/gone.txt" ["hw/a/2.txt"] [PInt 100]
             eq_refl U eq_refl).
Defined.

Lemma empty_match_is_no_error_witness :
  (glob hw (os_path_join (ConfigReader.path reader) "a/*.md") = [] /\
   ConfigReader._get_file_list hw reader (with_files no_match_files) =
   ConfigReader._get_file_list hw reader
     (with_files [PStr "a/*.txt";
                  PDict [(PStr "zip", PList [PStr "c/*"; PStr "b/*.py"])]]))
  /\
  (glob hw (os_path_join (ConfigReader.path reader) "c/*") = [] /\
   ConfigReader._get_file_list hw reader (with_files no_match_files) =
   ConfigReader._get_file_list hw reader
     (with_files [PStr "a/*.txt"; PStr "a/*.md";
                  PDict [(PStr "zip", PList [PStr "b/*.py"])]]))
  /\
  (CanvasAssignment.file_list (submitter []) = [] /\
   CanvasAssignment.submit (submitter []) (fresh hw) =
   (Ok (PDict [(PStr "file_ids", PList []);
               (PStr "submission_type", PStr "online_upload")]),
    {| world := hw;
       calls := [GetCourse (CanvasAssignment._canvas (submitter [])) (PInt 3);
                 GetAssignment (PInt 3) (PInt 12);
                 Submit (PInt 3, PInt 12)
                   (PDict [(PStr "file_ids", PList []);
                           (PStr "submission_type", PStr "online_upload")])];
       stdout := [] |})).
Proof.
  destruct empty_match_is_no_error as [Direct [Zip Empty]].
  split; [|split].
  - split; [reflexivity|].
    exact (Direct hw reader (with_files no_match_files)
             (with_files [PStr "a/*.txt";
                          PDict [(PStr "zip", PList [PStr "c/*"; PStr "b/*.py"])]])
             [PStr "a/*.txt"]
             [PDict [(PStr "zip", PList [PStr "c/*"; PStr "b/*.py"])]]
             "a/*.md" eq_refl eq_refl eq_refl).
  - split; [reflexivity|].
    exact (Zip hw reader (with_files no_match_files)
             (with_files [PStr "a/*.txt"; PStr "a/*.md";
                          PDict [(PStr "zip", PList [PStr "b/*.py"])]])
             [PStr "a/*.txt"; PStr "a/*.md"] []
             [(PStr "zip", PList [PStr "c/*"; PStr "b/*.py"])]
             [(PStr "zip", PList [PStr "b/*.py"])]
             [] [PStr "b/*.py"] "c/*"
             eq_refl eq_refl eq_refl eq_refl eq_refl).
  - split; [reflexivity|].
    exact (Empty (submitter []) (fresh hw) (PInt 3) (PInt 3, PInt 12)
             (Ok (CanvasAssignment.submission_of [])) hw hw hw
             eq_refl eq_refl eq_refl eq_refl).
Defined.

Lemma malformed_entry_raises_before_any_call_witness :
  (existsb (fun e => negb (well_shaped e)) integer_files = true /\
   CanvasAssignment.init "hw" ".canvas-include.yml"
     (fresh (disk_of "integer" names [])) =
   (Raise (ValueError "unexpected type detected in file list"),
    fresh (disk_of "integer" names [])))
  /\
  (forallb well_shaped integer_zip_files = true /\
   last_zip integer_zip_files (PList []) = PList [PStr "b/*.py"; PInt 5] /\
   CanvasAssignment.init "hw" ".canvas-include.yml"
     (fresh (disk_of "integer zip" names [])) =
   (Raise (ValueError "unexpected type detected in zip file list"),
    fresh (disk_of "integer zip" names []))).
Proof.
  split.
  - split; [reflexivity|].
    exact (proj2 (proj1 (malformed_entry_raises_before_any_call
                           (fresh (disk_of "integer" names [])) reader
                           "integer" (with_files integer_files) integer_files
                           eq_refl eq_refl eq_refl eq_refl eq_refl eq_refl)
                        eq_refl)).
  - split; [reflexivity|split; [reflexivity|]].
    exact (proj2 (proj2 (malformed_entry_raises_before_any_call
                           (fresh (disk_of "integer zip" names [])) reader
                           "integer zip" (with_files integer_zip_files)
                           integer_zip_files
                           eq_refl eq_refl eq_refl eq_refl eq_refl eq_refl)
                        [PStr "b/*.py"; PInt 5] eq_refl eq_refl eq_refl)).
Defined.

(** C5 as stated fails: a list of patterns under "zip" with an entry that
    is not a string does not make the reader fail when a later mapping
    with a key "zip" follows it.  On the disk whose include file holds
    [two_zip_files] the reader returns both lists. *)
Lemma zip_list_before_another_is_not_checked :
  ~ (forall (P : Platform) (w : @World P) (self : ConfigReader.t)
            (text : string) (config : pyval) (entries : list pyval)
            (d : list (pyval * pyval)) (zs : list pyval),
       @read_text P w
         (os_path_join (ConfigReader.path self) (ConfigReader.include_file self))
       = Ok text ->
       @yaml_load P text = Ok config ->
       py_getitem config (value FILES) = Ok (PList entries) ->
       In (PDict d) entries ->
       dict_get "zip" d = Some (PList zs) ->
       existsb (fun e => negb (type_is_str e)) zs = true ->
       exists msg, @ConfigReader.read P w self = Raise (ValueError msg)).
Proof.
  intros Claim.
  destruct (Claim demo (disk_of "two zip" names []) reader "two zip"
              (with_files two_zip_files) two_zip_files
              [(PStr "zip", PList [PInt 5])] [PInt 5]
              eq_refl eq_refl eq_refl (or_introl eq_refl) eq_refl eq_refl)
    as [msg R].
  rewrite read_two_zip in R. discriminate R.
Qed.

End Runs.

(** * Further properties of the reader *)

Section MoreReaderFacts.
Context `{Platform}.
Import ConfigReader.

Lemma validate_ok_all_present (d : list (pyval * pyval)) :
  __validate_config (PDict d) = Ok tt ->
  forall opt, dict_contains (PDict d) (value opt) = true.
Proof.
  rewrite validate_config_dict. intros E opt.
  destruct (dict_contains (PDict d) (value opt)) eqn:C; [reflexivity|].
  assert (I : In (value opt) (filter (absent d) FIRST_LEVEL_KEYS)).
  { apply filter_In. split.
    - apply value_in_FIRST_LEVEL_KEYS. eauto.
    - unfold absent. simpl in C. now rewrite C. }
  destruct (filter (absent d) FIRST_LEVEL_KEYS); [destruct I|discriminate].
Qed.

Lemma validate_non_mapping (config : pyval) :
  type_is_dict config = false ->
  __validate_config config = Raise AttributeError.
Proof. destruct config; simpl; intros E; try reflexivity. discriminate. Qed.

Lemma forallb_false_existsb {A : Type} (f : A -> bool) (l : list A) :
  forallb f l = false -> existsb (fun x => negb (f x)) l = true.
Proof.
  induction l as [|x l IH]; simpl; [discriminate|].
  destruct (f x); simpl; auto.
Qed.

Lemma strings_are_map (zs : list pyval) :
  forallb type_is_str zs = true -> zs = map PStr (strings_of zs).
Proof.
  induction zs as [|z zs IH]; simpl; [reflexivity|].
  destruct z; simpl; try discriminate. intros A. now rewrite <- IH.
Qed.

Lemma strings_of_map (l : list string) : strings_of (map PStr l) = l.
Proof. induction l as [|s l IH]; simpl; [|rewrite IH]; reflexivity. Qed.

Lemma map_strings_well_shaped (l : list string) :
  forallb well_shaped (map PStr l) = true.
Proof. induction l as [|s l IH]; simpl; auto. Qed.

Lemma last_zip_map_strings (l : list string) (g : pyval) :
  last_zip (map PStr l) g = g.
Proof. induction l as [|s l IH]; simpl; auto. Qed.

Lemma py_iter_str (s : string) :
  py_iter (PStr s) = Ok (map PStr (code_points s)).
Proof. reflexivity. Qed.

Lemma code_points_cons (c : ascii) (s : string) :
  exists item items,
    code_points (String c s) = String c item :: items
    /\ String.concat "" (item :: items) = String.concat "" (code_points s).
Proof.
  cbn [code_points]. destruct (continues s) eqn:C.
  - destruct (code_points s) as [|item items] eqn:P.
    + exists EmptyString, []. auto.
    + exists item, items. auto.
  - exists EmptyString, (code_points s). split; [reflexivity|].
    destruct (code_points s); reflexivity.
Qed.

Lemma concat_cons_char (c : ascii) (item : string) (items : list string) :
  String.concat "" (String c item :: items) =
  String c (String.concat "" (item :: items)).
Proof. destruct items; reflexivity. Qed.

(** The characters of a string, put together again, are the string. *)
Lemma code_points_concat (s : string) :
  String.concat "" (code_points s) = s.
Proof.
  induction s as [|c s IH]; [reflexivity|].
  destruct (code_points_cons c s) as [item [items [E K]]].
  now rewrite E, concat_cons_char, K, IH.
Qed.

(** A string without continuation bytes, such as an ASCII one, has one
    character per byte. *)
Lemma code_points_ascii (s : string) :
  forallb (fun c => negb (is_continuation c)) (list_ascii_of_string s) = true ->
  code_points s =
  map (fun c => String c EmptyString) (list_ascii_of_string s).
Proof.
  induction s as [|c s IH]; [reflexivity|].
  cbn [list_ascii_of_string forallb map code_points]. intros A.
  apply andb_true_iff in A as [_ A]. rewrite (IH A).
  destruct s as [|c' s']; [reflexivity|].
  cbn [list_ascii_of_string forallb] in A.
  apply andb_true_iff in A as [N _]. cbn [continues].
  apply negb_true_iff in N. rewrite N. reflexivity.
Qed.

(** X1. An include file whose content is not a mapping (an empty file, a
    list, a scalar) makes [read] raise [AttributeError], from the call of
    [keys] in the validation, not the error that lists missing keys. *)
Theorem read_rejects_non_mapping (w : World) (self : t) (text : string)
  (config : pyval) :
  os_path_isdir w (path self) = true ->
  os_path_isfile w (os_path_join (path self) (include_file self)) = true ->
  read_text w (os_path_join (path self) (include_file self)) = Ok text ->
  yaml_load text = Ok config ->
  type_is_dict config = false ->
  read w self = Raise AttributeError.
Proof.
  intros D F T Y N. unfold read. rewrite D, F. cbn [negb].
  rewrite T. cbn [rbind]. rewrite Y. cbn [rbind].
  rewrite (validate_non_mapping config N). reflexivity.
Qed.

(** X2. Validation looks only at which of the five required keys are
    present: two mappings that agree on that pass or fail alike, with the
    same error, whatever their values, their other keys and the order of
    their items. *)
Theorem validate_ignores_values (d d' : list (pyval * pyval)) :
  (forall opt, dict_contains (PDict d) (value opt) =
               dict_contains (PDict d') (value opt)) ->
  __validate_config (PDict d) = __validate_config (PDict d').
Proof.
  intros E. rewrite !validate_config_dict.
  rewrite (filter_ext_in (absent d) (absent d')); [reflexivity|].
  intros k I. apply value_in_FIRST_LEVEL_KEYS in I as [opt ->].
  unfold absent. specialize (E opt). simpl in E. now rewrite E.
Qed.

(** X3. What a successful [read] tells: the path is a directory, the
    include file is a file of it that could be opened and parsed, the
    configuration returned is the parsed value, a mapping that has the five
    required keys, and the two lists are what [_get_file_list] made of it. *)
Theorem read_success_inversion (w : World) (self : t) (config : pyval)
  (file_list zip_file_list : list string) :
  read w self = Ok (config, file_list, zip_file_list) ->
  os_path_isdir w (path self) = true
  /\ os_path_isfile w (os_path_join (path self) (include_file self)) = true
  /\ (exists text,
        read_text w (os_path_join (path self) (include_file self)) = Ok text
        /\ yaml_load text = Ok config)
  /\ (exists d, config = PDict d)
  /\ (forall opt, dict_contains config (value opt) = true)
  /\ _get_file_list w self config = Ok (file_list, zip_file_list).
Proof.
  unfold read.
  destruct (os_path_isdir w (path self)); [|discriminate].
  destruct (os_path_isfile w (os_path_join (path self) (include_file self)));
    [|discriminate].
  cbn [negb].
  destruct (read_text w (os_path_join (path self) (include_file self)))
    as [text|e]; [|discriminate].
  cbn [rbind].
  destruct (yaml_load text) as [parsed|e] eqn:Y; [|discriminate].
  cbn [rbind].
  destruct (__validate_config parsed) as [[]|e] eqn:V; [|discriminate].
  cbn [rbind].
  destruct (_get_file_list w self parsed) as [[fl zl]|e] eqn:G; [|discriminate].
  cbn [rbind]. intros E. inversion E; subst.
  split; [reflexivity|split; [reflexivity|split; [eauto|]]].
  destruct (type_is_dict config) eqn:T.
  - destruct config; try discriminate.
    split; [eauto|split; [|exact G]].
    now apply validate_ok_all_present.
  - rewrite (validate_non_mapping config T) in V. discriminate.
Qed.

(** X4. What a successful [_get_file_list] tells, for a file list that is
    a list: every entry is a string or a mapping with a key "zip"; the
    direct list is the matches of the string entries in order; the value
    under "zip" of the last mapping (the empty list when there is none) can
    be iterated over, yields strings only, and the zip list is their
    matches in order. *)
Theorem get_file_list_success_inversion (w : World) (self : t)
  (config : pyval) (entries : list pyval)
  (file_list zip_file_list : list string) :
  py_getitem config (value FILES) = Ok (PList entries) ->
  _get_file_list w self config = Ok (file_list, zip_file_list) ->
  forallb well_shaped entries = true
  /\ file_list = expand w self (strings_of entries)
  /\ exists zs,
       py_iter (last_zip entries (PList [])) = Ok zs
       /\ forallb type_is_str zs = true
       /\ zip_file_list = expand w self (strings_of zs).
Proof.
  intros F. unfold _get_file_list. rewrite F. cbn [rbind py_iter].
  destruct (forallb well_shaped entries) eqn:A.
  - rewrite (files_loop_well_shaped w self entries (PList []) [] A).
    cbn [rbind app].
    destruct (py_iter (last_zip entries (PList []))) as [zs|e];
      [|discriminate].
    cbn [rbind].
    destruct (forallb type_is_str zs) eqn:S.
    + rewrite (strings_are_map zs S) at 1. rewrite zip_loop_strings.
      cbn [rbind app]. intros E. inversion E; subst.
      split; [reflexivity|split; [reflexivity|]].
      exists zs. auto.
    + rewrite (zip_loop_malformed w self zs [] (forallb_false_existsb _ _ S)).
      discriminate.
  - rewrite (files_loop_malformed w self entries (PList []) []
               (forallb_false_existsb _ _ A)).
    discriminate.
Qed.

(** X5. When the value under "files" is a string instead of a list, no
    error is raised: each character (code point) of the string is taken as
    a pattern of its own and expanded, and the zip list is empty. *)
Theorem files_given_as_string (w : World) (self : t) (config : pyval)
  (s : string) :
  py_getitem config (value FILES) = Ok (PStr s) ->
  _get_file_list w self config = Ok (expand w self (code_points s), []).
Proof.
  intros F. unfold _get_file_list. rewrite F. cbn [rbind].
  rewrite py_iter_str. cbn [rbind].
  rewrite (files_loop_well_shaped w self _ (PList []) []
             (map_strings_well_shaped (code_points s))).
  cbn [rbind app]. rewrite last_zip_map_strings, strings_of_map.
  reflexivity.
Qed.

(** X6. The value under "zip" is iterated over only after the whole file
    list went through.  When it is a string, each of its characters
    (code points) is expanded as a pattern; when it is [None], a boolean or
    an integer, [TypeError] is raised. *)
Theorem zip_value_not_a_list (w : World) (self : t) (config : pyval)
  (entries : list pyval) :
  py_getitem config (value FILES) = Ok (PList entries) ->
  forallb well_shaped entries = true ->
  (forall s,
     last_zip entries (PList []) = PStr s ->
     _get_file_list w self config =
     Ok (expand w self (strings_of entries), expand w self (code_points s)))
  /\
  (not_iterable (last_zip entries (PList [])) = true ->
   _get_file_list w self config = Raise TypeError).
Proof.
  intros F A. unfold _get_file_list. rewrite F. cbn [rbind py_iter].
  rewrite (files_loop_well_shaped w self entries (PList []) [] A).
  cbn [rbind app]. split.
  - intros s Z. rewrite Z, py_iter_str. cbn [rbind].
    rewrite zip_loop_strings. reflexivity.
  - destruct (last_zip entries (PList [])); simpl; intros N;
      try reflexivity; discriminate.
Qed.

(** X7. A pattern added at the end of a file list that resolves adds its
    matches at the end of the direct list and leaves the zip list as it
    was; matches already found are found again, as the lists are never
    deduplicated. *)
Theorem appended_pattern_appends_matches (w : World) (self : t)
  (config config' : pyval) (entries : list pyval) (s : string)
  (file_list zip_file_list : list string) :
  py_getitem config (value FILES) = Ok (PList entries) ->
  py_getitem config' (value FILES) = Ok (PList (entries ++ [PStr s])) ->
  _get_file_list w self config = Ok (file_list, zip_file_list) ->
  _get_file_list w self config' =
  Ok (file_list ++ glob w (os_path_join (path self) s), zip_file_list).
Proof.
  intros F F'. unfold _get_file_list. rewrite F, F'. cbn [rbind py_iter].
  rewrite files_loop_app.
  destruct (files_loop w self entries (PList []) []) as [[g fl]|e];
    [|discriminate].
  rewrite files_loop_step_str. cbn [files_loop rbind].
  destruct (py_iter g) as [zs|e]; [|discriminate]. cbn [rbind].
  destruct (zip_loop w self zs []) as [zl|e]; [|discriminate].
  cbn [rbind]. intros E. inversion E; subst. reflexivity.
Qed.

(** X8. A file list of patterns that all start with the separator is
    expanded as it stands: [os.path.join] drops the directory in front of
    such a pattern, so the reader's directory plays no part in the
    result. *)
Theorem absolute_patterns_ignore_directory (w : World) (self : t)
  (config : pyval) (entries : list pyval) :
  py_getitem config (value FILES) = Ok (PList entries) ->
  forallb absolute_pattern entries = true ->
  _get_file_list w self config =
  Ok (flat_map (glob w) (strings_of entries), []).
Proof.
  intros F A.
  assert (S : forallb type_is_str entries = true).
  { clear F. induction entries as [|e entries IH]; [reflexivity|].
    simpl in *. apply andb_true_iff in A as [E A].
    destruct e; try discriminate. simpl. auto. }
  rewrite (get_file_list_well_shaped w self config entries [] F
             (strings_well_shaped _ S) (last_zip_strings _ _ S)).
  f_equal. f_equal. clear F S.
  induction entries as [|e entries IH]; [reflexivity|].
  simpl in A. apply andb_true_iff in A as [E A].
  destruct e; try discriminate. simpl in E.
  unfold expand in *. simpl. rewrite (IH A).
  unfold os_path_join. rewrite E. reflexivity.
Qed.

End MoreReaderFacts.

(** * Further properties of the submitter *)

Section MoreSubmitFacts.
Context `{Platform}.
Import CanvasAssignment.

Lemma upload_step (self : t) (path : string) (s : state) :
  (os_path_isfile (world s) path = false /\
   upload_file_to_assignment (_requester self) (course_id self)
     (assignment_id self) (user_id self) path s =
   (Raise (ValueError "'path' must be a valid path to a file."), s))
  \/
  (os_path_isfile (world s) path = true /\
   exists r w',
     uploader_start (world s) (_requester self)
       (upload_url_of (course_id self) (assignment_id self) (user_id self))
       path = (r, w') /\
     upload_file_to_assignment (_requester self) (course_id self)
       (assignment_id self) (user_id self) path s =
     (r, after_upload self s path w')).
Proof.
  destruct (os_path_isfile (world s) path) eqn:F.
  - right. split; [reflexivity|].
    destruct (uploader_start (world s) (_requester self)
                (upload_url_of (course_id self) (assignment_id self)
                   (user_id self)) path) as [r w'] eqn:U.
    exists r, w'. split; [reflexivity|].
    now apply upload_present_file.
  - left. split; [reflexivity|]. now apply upload_absent_file.
Qed.

Lemma upload_loop_cons (self : t) (path : string) (paths : list string)
  (file_ids : list pyval) (s : state) :
  upload_loop self (path :: paths) file_ids s =
  match upload_file_to_assignment (_requester self) (course_id self)
          (assignment_id self) (user_id self) path s with
  | (Ok (true, response), s') =>
      match py_getitem response "id" with
      | Ok file_id => upload_loop self paths (file_ids ++ [file_id]) s'
      | Raise e => (Raise e, s')
      end
  | (Ok (false, _), s') =>
      (Raise (IOError ("Failed to upload " ++ path ++ ".")), s')
  | (Raise e, s') => (Raise e, s')
  end.
Proof.
  cbn [upload_loop]. unfold bind at 1.
  destruct (upload_file_to_assignment (_requester self) (course_id self)
              (assignment_id self) (user_id self) path s)
    as [[[[] response]|e] s']; reflexivity.
Qed.

Lemma upload_loop_ok_uploaded (self : t) (paths : list string) :
  forall file_ids s ids s1,
    upload_loop self paths file_ids s = (Ok ids, s1) ->
    exists new_ids, ids = file_ids ++ new_ids /\ uploaded self s paths new_ids s1.
Proof.
  induction paths as [|path paths IH]; intros file_ids s ids s1 L.
  - inversion L; subst. exists []. rewrite app_nil_r.
    split; [reflexivity|apply uploaded_nil].
  - rewrite upload_loop_cons in L.
    destruct (upload_step self path s) as [[F E]|[F [r [w' [U E]]]]];
      rewrite E in L; [discriminate|].
    destruct r as [[[] response]|e]; try discriminate.
    destruct (py_getitem response "id") as [file_id|e] eqn:I;
      [|discriminate].
    apply IH in L as [new_ids [-> U']].
    exists (file_id :: new_ids). rewrite <- app_assoc.
    split; [reflexivity|].
    eapply uploaded_cons; eauto.
Qed.

Lemma upload_loop_calls (self : t) (paths : list string) :
  forall file_ids s r s',
    upload_loop self paths file_ids s = (r, s') ->
    exists k,
      k <= length paths
      /\ calls s' = calls s ++ map (upload_call self) (firstn k paths)
      /\ (forall ids, r = Ok ids ->
            k = length paths /\ length ids = length file_ids + length paths).
Proof.
  induction paths as [|path paths IH]; intros file_ids s r s' L.
  - inversion L; subst. exists 0. simpl. rewrite app_nil_r.
    split; [lia|split; [reflexivity|]].
    intros ids E. inversion E; subst. split; lia.
  - rewrite upload_loop_cons in L.
    destruct (upload_step self path s) as [[F E]|[F [r0 [w' [U E]]]]];
      rewrite E in L.
    + inversion L; subst. exists 0. simpl. rewrite app_nil_r.
      split; [lia|split; [reflexivity|discriminate]].
    + assert (Stop : forall e,
                (r, s') = (Raise e, after_upload self s path w') ->
                exists k,
                  k <= length (path :: paths)
                  /\ calls s' =
                     calls s ++ map (upload_call self) (firstn k (path :: paths))
                  /\ (forall ids, r = Ok ids ->
                        k = length (path :: paths) /\
                        length ids = length file_ids + length (path :: paths))).
      { intros e E'. inversion E'; subst. exists 1. simpl.
        split; [lia|split; [reflexivity|discriminate]]. }
      destruct r0 as [[[] response]|e]; [| |]; try (symmetry in L; eauto; fail).
      destruct (py_getitem response "id") as [file_id|e] eqn:I;
        [|symmetry in L; eauto].
      apply IH in L as [k [Hk [Hc Hok]]].
      exists (S k). simpl. split; [lia|split].
      * rewrite Hc. cbn [after_upload calls]. now rewrite <- app_assoc.
      * intros ids E'. destruct (Hok ids E') as [-> Hl].
        split; [reflexivity|]. rewrite Hl, length_app. simpl. lia.
Qed.

Lemma uploaded_stdout (self : t) (s s' : state)
  (paths : list string) (ids : list pyval) :
  uploaded self s paths ids s' ->
  stdout s' = stdout s ++ upload_lines self paths.
Proof.
  induction 1 as [s|s path paths response file_id w' ids s' F U I _ IH].
  - now rewrite app_nil_r.
  - rewrite IH. cbn [after_upload stdout upload_lines flat_map].
    rewrite <- !app_assoc. reflexivity.
Qed.

Lemma submit_after_uploads (self : t) (s s1 : state) (ids : list pyval) :
  uploaded self s (file_list self) ids s1 ->
  submit self s =
  match get_course (world s1) (_canvas self) (course_id self) with
  | (Ok course, w2) =>
      match course_get_assignment w2 course (assignment_id self) with
      | (Ok assignment, w3) =>
          let (answer, w4) :=
            assignment_submit w3 assignment (submission_of ids) in
          (answer,
           {| world := w4;
              calls := calls s1 ++
                       [GetCourse (_canvas self) (course_id self);
                        GetAssignment course (assignment_id self);
                        Submit assignment (submission_of ids)];
              stdout := stdout s1 |})
      | (Raise e, w3) =>
          (Raise e,
           {| world := w3;
              calls := calls s1 ++
                       [GetCourse (_canvas self) (course_id self);
                        GetAssignment course (assignment_id self)];
              stdout := stdout s1 |})
      end
  | (Raise e, w2) =>
      (Raise e,
       {| world := w2;
          calls := calls s1 ++ [GetCourse (_canvas self) (course_id self)];
          stdout := stdout s1 |})
  end.
Proof.
  intros U. unfold submit. unfold bind at 1.
  rewrite <- (app_nil_r (file_list self)), (upload_loop_uploaded _ _ _ _ _ U).
  cbn [upload_loop ret app].
  unfold get_assignment, bind, invoke.
  destruct (get_course (world s1) (_canvas self) (course_id self))
    as [[course|e] w2]; [|reflexivity].
  cbn [world calls stdout].
  destruct (course_get_assignment w2 course (assignment_id self))
    as [[assignment|e] w3]; [|now rewrite <- app_assoc].
  cbn [world calls stdout].
  destruct (assignment_submit w3 assignment (submission_of ids))
    as [answer w4].
  rewrite <- !app_assoc. reflexivity.
Qed.

Lemma submit_stopped (self : t) (s s1 : state) (pre post : list string)
  (path : string) (ids : list pyval) :
  file_list self = pre ++ path :: post ->
  uploaded self s pre ids s1 ->
  submit self s =
  match upload_loop self (path :: post) ([] ++ ids) s1 with
  | (Ok file_ids, s2) =>
      bind (get_assignment self)
        (fun assignment =>
           invoke (Submit assignment (submission_of file_ids))
             (fun w => assignment_submit w assignment (submission_of file_ids)))
        s2
  | (Raise e, s2) => (Raise e, s2)
  end.
Proof.
  intros L U. unfold submit. unfold bind at 1.
  rewrite L, (upload_loop_uploaded _ _ _ _ _ U).
  destruct (upload_loop self (path :: post) ([] ++ ids) s1) as [[file_ids|e] s2];
    reflexivity.
Qed.

(** X9. Whatever the files and the service do, the calls [submit] adds to
    the log are the uploads of the first [k] files of the list, in list
    order and with nothing between them, followed by the lookup of the
    course, that of the assignment and one submission, as far as it got.
    Nothing follows the uploads unless all files were uploaded, and a
    submission carries as many identifiers as the list has files. *)
Theorem submit_call_discipline (self : t) (s : state) :
  exists k closing,
    k <= length (file_list self)
    /\ calls (snd (submit self s)) =
       calls s ++ map (upload_call self) (firstn k (file_list self)) ++ closing
    /\ closing_calls self (length (file_list self)) closing
    /\ (closing <> [] -> k = length (file_list self)).
Proof.
  unfold submit. unfold bind at 1.
  destruct (upload_loop self (file_list self) [] s) as [r s1] eqn:L.
  destruct (upload_loop_calls _ _ _ _ _ _ L) as [k [Hk [Hc Hok]]].
  destruct r as [ids|e].
  - destruct (Hok ids eq_refl) as [-> Hl]. simpl in Hl.
    exists (length (file_list self)).
    unfold get_assignment, bind, invoke.
    destruct (get_course (world s1) (_canvas self) (course_id self))
      as [[course|e] w2]; cbn [world calls stdout snd].
    + destruct (course_get_assignment w2 course (assignment_id self))
        as [[assignment|e] w3]; cbn [world calls stdout snd].
      * destruct (assignment_submit w3 assignment (submission_of ids))
          as [answer w4]. cbn [snd calls].
        eexists. split; [lia|split; [|split; [|reflexivity]]].
        -- rewrite Hc, <- !app_assoc. reflexivity.
        -- now apply closing_submit.
      * eexists. split; [lia|split; [|split; [|reflexivity]]].
        -- rewrite Hc, <- !app_assoc. reflexivity.
        -- apply closing_assignment.
    + eexists. split; [lia|split; [|split; [|reflexivity]]].
      * rewrite Hc, <- !app_assoc. reflexivity.
      * apply closing_course.
  - exists k, []. cbn [snd]. split; [exact Hk|split; [|split]].
    + now rewrite app_nil_r.
    + apply closing_none.
    + intros N. now destruct N.
Qed.

(** X10. When [submit] returns a value, every upload of the list found its
    file, reported success and returned an identifier, both lookups
    returned, and the value is the answer of the service to the submission
    of these identifiers. *)
Theorem submit_success_inversion (self : t) (s s' : state) (answer : pyval) :
  submit self s = (Ok answer, s') ->
  exists ids s1 course assignment w2 w3,
    uploaded self s (file_list self) ids s1
    /\ get_course (world s1) (_canvas self) (course_id self) = (Ok course, w2)
    /\ course_get_assignment w2 course (assignment_id self) = (Ok assignment, w3)
    /\ assignment_submit w3 assignment (submission_of ids) = (Ok answer, world s').
Proof.
  intros E.
  destruct (upload_loop self (file_list self) [] s) as [r s1] eqn:L.
  destruct r as [ids|e].
  - apply upload_loop_ok_uploaded in L as [new_ids [-> U]]. simpl in *.
    rewrite (submit_after_uploads self s s1 new_ids U) in E.
    destruct (get_course (world s1) (_canvas self) (course_id self))
      as [[course|e] w2] eqn:C; [|discriminate].
    destruct (course_get_assignment w2 course (assignment_id self))
      as [[assignment|e] w3] eqn:A; [|discriminate].
    destruct (assignment_submit w3 assignment (submission_of new_ids))
      as [r w4] eqn:S.
    inversion E; subst. cbn [world].
    exists new_ids, s1, course, assignment, w2, w3. auto.
  - unfold submit in E. unfold bind at 1 in E. rewrite L in E. discriminate.
Qed.

(** X11. An exception raised by the uploader for a file is what [submit]
    raises; the upload call is logged, the files after it are not
    uploaded and nothing is submitted. *)
Theorem upload_exception_propagates (self : t) (s s1 : state)
  (pre post : list string) (path : string) (ids : list pyval)
  (e : exn) (w2 : World) :
  file_list self = pre ++ path :: post ->
  uploaded self s pre ids s1 ->
  os_path_isfile (world s1) path = true ->
  uploader_start (world s1) (_requester self)
    (upload_url_of (course_id self) (assignment_id self) (user_id self)) path
  = (Raise e, w2) ->
  submit self s = (Raise e, after_upload self s1 path w2)
  /\ calls (after_upload self s1 path w2) =
     calls s ++ map (upload_call self) pre ++ [upload_call self path].
Proof.
  intros L U F R. split.
  - rewrite (submit_stopped self s s1 pre post path ids L U).
    rewrite upload_loop_cons, (upload_present_file self path s1 _ w2 F R).
    reflexivity.
  - cbn [after_upload calls].
    rewrite (proj1 (uploaded_calls _ _ _ _ _ U)), <- app_assoc. reflexivity.
Qed.

(** X12. An upload that reports success with a response that has no
    identifier stops [submit] after that upload was sent: with [KeyError]
    for a mapping without the key "id", with [TypeError] for a response
    that is no mapping.  Nothing is submitted. *)
Theorem success_without_identifier (self : t) (s s1 : state)
  (pre post : list string) (path : string) (ids : list pyval)
  (response : pyval) (w2 : World) :
  file_list self = pre ++ path :: post ->
  uploaded self s pre ids s1 ->
  os_path_isfile (world s1) path = true ->
  uploader_start (world s1) (_requester self)
    (upload_url_of (course_id self) (assignment_id self) (user_id self)) path
  = (Ok (true, response), w2) ->
  (forall d, response = PDict d -> dict_get "id" d = None ->
     submit self s = (Raise (KeyError "id"), after_upload self s1 path w2))
  /\
  (type_is_dict response = false ->
     submit self s = (Raise TypeError, after_upload self s1 path w2)).
Proof.
  intros L U F R.
  rewrite (submit_stopped self s s1 pre post path ids L U).
  rewrite upload_loop_cons, (upload_present_file self path s1 _ w2 F R).
  split.
  - intros d -> N. cbn [py_getitem]. rewrite N. reflexivity.
  - intros N. destruct response; try reflexivity. discriminate.
Qed.

(** X13. When all files are uploaded and the lookup of the course, or
    then that of the assignment, raises, [submit] raises the same error:
    the uploads stay sent, the log ends with the lookup that failed, and
    nothing is submitted. *)
Theorem lookup_failure_after_uploads (self : t) (s s1 : state)
  (ids : list pyval) :
  uploaded self s (file_list self) ids s1 ->
  (forall e w2,
     get_course (world s1) (_canvas self) (course_id self) = (Raise e, w2) ->
     submit self s =
     (Raise e,
      {| world := w2;
         calls := calls s ++ map (upload_call self) (file_list self) ++
                  [GetCourse (_canvas self) (course_id self)];
         stdout := stdout s1 |}))
  /\
  (forall course e w2 w3,
     get_course (world s1) (_canvas self) (course_id self) = (Ok course, w2) ->
     course_get_assignment w2 course (assignment_id self) = (Raise e, w3) ->
     submit self s =
     (Raise e,
      {| world := w3;
         calls := calls s ++ map (upload_call self) (file_list self) ++
                  [GetCourse (_canvas self) (course_id self);
                   GetAssignment course (assignment_id self)];
         stdout := stdout s1 |})).
Proof.
  intros U. rewrite (submit_after_uploads self s s1 ids U).
  rewrite (proj1 (uploaded_calls _ _ _ _ _ U)). split.
  - intros e w2 C. rewrite C, <- app_assoc. reflexivity.
  - intros course e w2 w3 C A. rewrite C, A, <- app_assoc. reflexivity.
Qed.

Lemma upload_loop_ignores_zip_file_list (self : t)
  (zip_files : list string) (paths : list string) :
  forall file_ids s,
    upload_loop (with_zip_file_list self zip_files) paths file_ids s =
    upload_loop self paths file_ids s.
Proof.
  induction paths as [|path paths IH]; intros file_ids s; [reflexivity|].
  rewrite !upload_loop_cons. cbn [with_zip_file_list _requester course_id
                                   assignment_id user_id].
  destruct (upload_file_to_assignment (_requester self) (course_id self)
              (assignment_id self) (user_id self) path s)
    as [[[[] response]|e] s']; try reflexivity.
  destruct (py_getitem response "id"); [apply IH|reflexivity].
Qed.

(** X14. [submit] never looks at the zip list: with any other zip list the
    submitter returns the same result and leaves the same state, so the
    files resolved for zipping are neither uploaded nor submitted. *)
Theorem submit_ignores_zip_file_list (self : t) (zip_files : list string)
  (s : state) :
  submit (with_zip_file_list self zip_files) s = submit self s.
Proof.
  unfold submit, bind.
  cbn [with_zip_file_list file_list].
  rewrite upload_loop_ignores_zip_file_list.
  reflexivity.
Qed.

(** X15. When the uploads of all files go through, what [submit] prints
    is, for every file in list order, the upload URL and then the path;
    the lookups and the submission print nothing, whether they succeed or
    not. *)
Theorem submit_prints_upload_lines (self : t) (s s1 : state)
  (ids : list pyval) :
  uploaded self s (file_list self) ids s1 ->
  stdout (snd (submit self s)) =
  stdout s ++ upload_lines self (file_list self).
Proof.
  intros U. rewrite (submit_after_uploads self s s1 ids U).
  rewrite <- (uploaded_stdout _ _ _ _ _ U).
  destruct (get_course (world s1) (_canvas self) (course_id self))
    as [[course|e] w2]; [|reflexivity].
  destruct (course_get_assignment w2 course (assignment_id self))
    as [[assignment|e] w3]; [|reflexivity].
  destruct (assignment_submit w3 assignment (submission_of ids));
    reflexivity.
Qed.

(** X16. For a path that is a regular file, [upload_file_to_assignment]
    prints the URL and the path, makes the one call of the uploader for
    the URL "/api/v1/courses/<course>/assignments/<assignment>/submissions/<user>/files"
    and hands back what the uploader gave, be it a pair or an exception. *)
Theorem upload_of_existing_file (requester : Requester)
  (course assn user : pyval) (url path : string) (s : state)
  (r : result (bool * pyval)) (w' : World) :
  url = ("/api/v1/courses/" ++ py_format course ++ "/assignments/" ++
         py_format assn ++ "/submissions/" ++ py_format user ++ "/files")%string ->
  os_path_isfile (world s) path = true ->
  uploader_start (world s) requester url path = (r, w') ->
  upload_file_to_assignment requester course assn user path s =
  (r, {| world := w';
         calls := calls s ++ [Upload requester url path];
         stdout := stdout s ++ [url; path] |}).
Proof.
  intros -> F U. destruct s as [w c o]. cbn [world] in F, U.
  unfold upload_file_to_assignment, bind, look, print, invoke.
  cbn [world calls stdout]. rewrite F. cbn [negb world calls stdout].
  unfold upload_url_of. rewrite U.
  rewrite <- app_assoc. reflexivity.
Qed.

Lemma read_ok_lookup (w : World) (self : ConfigReader.t) (config : pyval)
  (file_list zip_file_list : list string) (opt : ConfigOptions) :
  ConfigReader.read w self = Ok (config, file_list, zip_file_list) ->
  exists v, py_getitem config (value opt) = Ok v.
Proof.
  unfold ConfigReader.read.
  destruct (os_path_isdir w (ConfigReader.path self)); [|discriminate].
  destruct (os_path_isfile w _); [|discriminate]. cbn [negb].
  destruct (read_text w _) as [text|e]; [|discriminate]. cbn [rbind].
  destruct (yaml_load text) as [parsed|e]; [|discriminate]. cbn [rbind].
  destruct (ConfigReader.__validate_config parsed) as [[]|e] eqn:V;
    [|discriminate].
  cbn [rbind].
  destruct (ConfigReader._get_file_list w self parsed) as [[fl zl]|e];
    [|discriminate].
  cbn [rbind]. intros E. inversion E; subst.
  destruct (type_is_dict config) eqn:T.
  - destruct config; try discriminate.
    pose proof (validate_ok_all_present d V opt) as C. simpl in C.
    destruct (py_in_dict_get _ _ C) as [v G].
    exists v. cbn [py_getitem]. now rewrite G.
  - rewrite (validate_non_mapping config T) in V. discriminate.
Qed.

(** X17. After a successful [read] the four lookups in the configuration
    cannot fail.  The constructor then asks the service for the current
    user, once, with the URL and key of the configuration; when that
    returns it prints the user's identifier and yields the submitter that
    holds the two lists of [read], the identifiers of the configuration and
    that of the user. *)
Theorem init_after_successful_read (path include_file : string) (s : state)
  (config : pyval) (files zip_files : list string) :
  ConfigReader.read (world s)
    {| ConfigReader.path := path; ConfigReader.include_file := include_file |}
  = Ok (config, files, zip_files) ->
  exists aid cid url key,
    py_getitem config (value AID) = Ok aid
    /\ py_getitem config (value CID) = Ok cid
    /\ py_getitem config (value URL) = Ok url
    /\ py_getitem config (value API_KEY) = Ok key
    /\ forall user w',
         get_current_user (world s) {| base_url := url; access_token := key |}
         = (Ok user, w') ->
         init path include_file s =
         (Ok {| file_list := files;
                zip_file_list := zip_files;
                assignment_id := aid;
                course_id := cid;
                _canvas := {| base_url := url; access_token := key |};
                _requester := {| requester_url := url; requester_token := key |};
                user_id := id user |},
          {| world := w';
             calls := calls s ++
                      [GetCurrentUser {| base_url := url; access_token := key |}];
             stdout := stdout s ++ [py_format (id user)] |}).
Proof.
  intros R.
  destruct (read_ok_lookup _ _ _ _ _ AID R) as [aid Ga].
  destruct (read_ok_lookup _ _ _ _ _ CID R) as [cid Gc].
  destruct (read_ok_lookup _ _ _ _ _ URL R) as [url Gu].
  destruct (read_ok_lookup _ _ _ _ _ API_KEY R) as [key Gk].
  exists aid, cid, url, key. repeat (split; [assumption|]).
  intros user w' G. unfold init, bind, look, invoke, print, ret.
  rewrite R, Ga, Gc, Gu, Gk, G. reflexivity.
Qed.

(** X18. When the lookup of the current user raises, the constructor
    raises the same error: the call is logged, nothing is printed and no
    submitter is built. *)
Theorem init_identity_failure (path include_file : string) (s : state)
  (config url key : pyval) (files zip_files : list string)
  (e : exn) (w' : World) :
  ConfigReader.read (world s)
    {| ConfigReader.path := path; ConfigReader.include_file := include_file |}
  = Ok (config, files, zip_files) ->
  py_getitem config (value URL) = Ok url ->
  py_getitem config (value API_KEY) = Ok key ->
  get_current_user (world s) {| base_url := url; access_token := key |}
  = (Raise e, w') ->
  init path include_file s =
  (Raise e,
   {| world := w';
      calls := calls s ++
               [GetCurrentUser {| base_url := url; access_token := key |}];
      stdout := stdout s |}).
Proof.
  intros R Gu Gk G.
  destruct (read_ok_lookup _ _ _ _ _ AID R) as [aid Ga].
  destruct (read_ok_lookup _ _ _ _ _ CID R) as [cid Gc].
  unfold init, bind, look, invoke, print, ret.
  rewrite R, Ga, Gc, Gu, Gk, G. reflexivity.
Qed.

(** X19. The constructor makes no call and prints nothing when the
    reader fails on the path, on the include file or on the required keys:
    it raises the reader's error in the state it started in.  For the keys
    that is the error whose message ends in the formatted list of exactly
    the required keys the mapping lacks. *)
Theorem init_stops_before_client (path include_file : string) (s : state) :
  (os_path_isdir (world s) path = false ->
   init path include_file s =
   (Raise (ValueError ("'path' (" ++ path ++ ") must be a directory.")), s))
  /\
  (os_path_isdir (world s) path = true ->
   os_path_isfile (world s) (os_path_join path include_file) = false ->
   init path include_file s =
   (Raise (FileNotFoundError
             (os_path_join path include_file ++ " does not exist")), s))
  /\
  (forall text d,
     os_path_isdir (world s) path = true ->
     os_path_isfile (world s) (os_path_join path include_file) = true ->
     read_text (world s) (os_path_join path include_file) = Ok text ->
     yaml_load text = Ok (PDict d) ->
     (exists opt, dict_contains (PDict d) (value opt) = false) ->
     exists bad_keys,
       bad_keys <> []
       /\ (forall k, In k bad_keys <->
                     (exists opt, k = value opt) /\
                     dict_contains (PDict d) k = false)
       /\ init path include_file s =
          (Raise (ValueError
                    ("provided configuration " ++
                   String "010"
                     ("                                file is missing " ++
                      String "010"
                        ("                                required keys: " ++
                         py_format (PList (map PStr bad_keys)))))),
           s)).
Proof.
  split; [|split].
  - intros D. apply init_reader_raises. unfold ConfigReader.read.
    cbn [ConfigReader.path]. rewrite D. reflexivity.
  - intros D F. apply init_reader_raises. unfold ConfigReader.read.
    cbn [ConfigReader.path ConfigReader.include_file]. rewrite D, F.
    reflexivity.
  - intros text d D F T Y [opt C].
    assert (I : In (value opt)
                  (filter (absent d) ConfigReader.FIRST_LEVEL_KEYS)).
    { apply filter_In. split.
      - apply value_in_FIRST_LEVEL_KEYS. eauto.
      - unfold absent. simpl in C. now rewrite C. }
    exists (filter (absent d) ConfigReader.FIRST_LEVEL_KEYS).
    split; [|split].
    + intros N. rewrite N in I. destruct I.
    + intros k. rewrite filter_In, value_in_FIRST_LEVEL_KEYS.
      unfold absent; simpl. rewrite negb_true_iff. tauto.
    + apply init_reader_raises. unfold ConfigReader.read.
      cbn [ConfigReader.path ConfigReader.include_file]. rewrite D, F.
      cbn [negb]. rewrite T. cbn [rbind]. rewrite Y. cbn [rbind].
      rewrite validate_config_dict.
      destruct (filter (absent d) ConfigReader.FIRST_LEVEL_KEYS);
        [destruct I|reflexivity].
Qed.

End MoreSubmitFacts.

(** ** Further runs on the concrete platforms *)

Section MoreRuns.
Import Fixture.
#[local] Existing Instance demo.

Lemma read_rejects_non_mapping_witness :
  @yaml_load (Faults.platform Faults.none) "" = Ok PNone
  /\ type_is_dict PNone = false
  /\ @ConfigReader.read (Faults.platform Faults.none)
       (disk_of "" names []) reader = Raise AttributeError.
Proof.
  split; [reflexivity|split; [reflexivity|]].
  exact (@read_rejects_non_mapping (Faults.platform Faults.none)
           (disk_of "" names []) reader "" PNone
           eq_refl eq_refl eq_refl eq_refl eq_refl).
Defined.

Lemma validate_ignores_values_witness :
  (forall opt,
     dict_contains (with_files example_files) (value opt) =
     dict_contains
       (PDict [(PStr "api_key", PNone); (PStr "files", PNone);
               (PStr "canvas_url", PNone); (PStr "course_id", PNone);
               (PStr "extra", PInt 1); (PStr "assignment_id", PNone)])
       (value opt))
  /\ ConfigReader.__validate_config
       (PDict [(PStr "api_key", PNone); (PStr "files", PNone);
               (PStr "canvas_url", PNone); (PStr "course_id", PNone);
               (PStr "extra", PInt 1); (PStr "assignment_id", PNone)])
     = Ok tt.
Proof.
  assert (E : forall opt,
            dict_contains (with_files example_files) (value opt) =
            dict_contains
              (PDict [(PStr "api_key", PNone); (PStr "files", PNone);
                      (PStr "canvas_url", PNone); (PStr "course_id", PNone);
                      (PStr "extra", PInt 1); (PStr "assignment_id", PNone)])
              (value opt)).
  { intros []; reflexivity. }
  split; [exact E|].
  rewrite <- (@validate_ignores_values demo _ _ E). reflexivity.
Defined.

Lemma read_success_inversion_witness :
  ConfigReader.read hw reader =
    Ok (with_files example_files, ["hw/a/1.txt"; "hw/a/2.txt"], ["hw/b/x.py"])
  /\ os_path_isdir hw "hw" = true
  /\ (forall opt, dict_contains (with_files example_files) (value opt) = true).
Proof.
  split; [reflexivity|].
  destruct (@read_success_inversion demo hw reader (with_files example_files)
              ["hw/a/1.txt"; "hw/a/2.txt"] ["hw/b/x.py"] eq_refl)
    as [D [_ [_ [_ [K _]]]]].
  split; [exact D|exact K].
Defined.

Lemma get_file_list_success_inversion_witness :
  ConfigReader._get_file_list hw reader (with_files example_files) =
    Ok (["hw/a/1.txt"; "hw/a/2.txt"], ["hw/b/x.py"])
  /\ forallb well_shaped example_files = true
  /\ ["hw/a/1.txt"; "hw/a/2.txt"] = expand hw reader (strings_of example_files).
Proof.
  split; [reflexivity|].
  destruct (@get_file_list_success_inversion demo hw reader
              (with_files example_files) example_files
              ["hw/a/1.txt"; "hw/a/2.txt"] ["hw/b/x.py"] eq_refl eq_refl)
    as [A [E _]].
  split; [exact A|exact E].
Defined.

Lemma files_given_as_string_witness :
  py_getitem (Faults.config_with (PStr Faults.n_e)) (value FILES)
  = Ok (PStr Faults.n_e)
  /\ code_points Faults.n_e = ["n"; Faults.e_acute]
  /\ ConfigReader._get_file_list Faults.accented reader
       (Faults.config_with (PStr Faults.n_e)) =
     Ok (["hw/n"; Faults.e_path], []).
Proof.
  split; [reflexivity|split; [reflexivity|]].
  exact (files_given_as_string Faults.accented reader
           (Faults.config_with (PStr Faults.n_e))
           Faults.n_e eq_refl).
Defined.

Lemma zip_value_not_a_list_witness :
  (last_zip [PStr "a/*.txt"; PDict [(PStr "zip", PStr Faults.e_n)]]
     (PList [])
   = PStr Faults.e_n
   /\ ConfigReader._get_file_list Faults.accented reader
        (with_files [PStr "a/*.txt";
                     PDict [(PStr "zip", PStr Faults.e_n)]]) =
      Ok ([], [Faults.e_path; "hw/n"]))
  /\
  (not_iterable (last_zip [PDict [(PStr "zip", PNone)]] (PList [])) = true
   /\ ConfigReader._get_file_list Faults.accented reader
        (with_files [PDict [(PStr "zip", PNone)]]) = Raise TypeError).
Proof.
  split.
  - split; [reflexivity|].
    exact (proj1 (zip_value_not_a_list Faults.accented reader
                    (with_files [PStr "a/*.txt";
                                 PDict [(PStr "zip",
                                         PStr Faults.e_n)]])
                    [PStr "a/*.txt";
                     PDict [(PStr "zip", PStr Faults.e_n)]]
                    eq_refl eq_refl) Faults.e_n eq_refl).
  - split; [reflexivity|].
    exact (proj2 (zip_value_not_a_list Faults.accented reader
                    (with_files [PDict [(PStr "zip", PNone)]])
                    [PDict [(PStr "zip", PNone)]]
                    eq_refl eq_refl) eq_refl).
Defined.

Lemma appended_pattern_appends_matches_witness :
  ConfigReader._get_file_list hw reader (with_files example_files) =
    Ok (["hw/a/1.txt"; "hw/a/2.txt"], ["hw/b/x.py"])
  /\ ConfigReader._get_file_list hw reader
       (with_files (example_files ++ [PStr "a/1.*"])) =
     Ok (["hw/a/1.txt"; "hw/a/2.txt"; "hw/a/1.txt"], ["hw/b/x.py"]).
Proof.
  split; [reflexivity|].
  exact (appended_pattern_appends_matches hw reader
           (with_files example_files)
           (with_files (example_files ++ [PStr "a/1.*"]))
           example_files "a/1.*"
           ["hw/a/1.txt"; "hw/a/2.txt"] ["hw/b/x.py"]
           eq_refl eq_refl eq_refl).
Defined.

Lemma absolute_patterns_ignore_directory_witness :
  forallb absolute_pattern [PStr "/srv/*.txt"] = true
  /\ ConfigReader._get_file_list Faults.outside reader
       (with_files [PStr "/srv/*.txt"]) = Ok (["/srv/notes.txt"], []).
Proof.
  split; [reflexivity|].
  exact (absolute_patterns_ignore_directory Faults.outside reader
           (with_files [PStr "/srv/*.txt"]) [PStr "/srv/*.txt"]
           eq_refl eq_refl).
Defined.

Lemma submit_success_inversion_witness :
  CanvasAssignment.submit sub2 (fresh hw) =
    (Ok (CanvasAssignment.submission_of [PInt 100; PInt 101]),
     snd (CanvasAssignment.submit sub2 (fresh hw)))
  /\ exists ids s1,
       uploaded sub2 (fresh hw) (CanvasAssignment.file_list sub2) ids s1.
Proof.
  split; [reflexivity|].
  destruct (@submit_success_inversion demo sub2 (fresh hw)
              (snd (CanvasAssignment.submit sub2 (fresh hw)))
              (CanvasAssignment.submission_of [PInt 100; PInt 101]) eq_refl)
    as [ids [s1 [course [assignment [w2 [w3 [U _]]]]]]].
  exists ids, s1. exact U.
Defined.

Lemma upload_exception_propagates_witness :
  let P := Faults.platform Faults.second_broken in
  @uploaded P sub2 (Faults.fresh Faults.second_broken hw) ["hw/a/1.txt"]
    [PInt 100] (Faults.after1 Faults.second_broken sub2 hw)
  /\ @CanvasAssignment.submit P sub2 (Faults.fresh Faults.second_broken hw) =
     (Raise (LibraryError "connection reset"),
      @after_upload P sub2 (Faults.after1 Faults.second_broken sub2 hw)
        "hw/a/2.txt" (bump hw)).
Proof.
  intros P.
  assert (U : @uploaded P sub2 (Faults.fresh Faults.second_broken hw)
                ["hw/a/1.txt"] [PInt 100]
                (Faults.after1 Faults.second_broken sub2 hw)).
  { eapply uploaded_cons; [reflexivity|reflexivity|reflexivity|].
    apply uploaded_nil. }
  split; [exact U|].
  exact (proj1 (@upload_exception_propagates P sub2
                  (Faults.fresh Faults.second_broken hw)
                  (Faults.after1 Faults.second_broken sub2 hw)
                  ["hw/a/1.txt"] [] "hw/a/2.txt" [PInt 100]
                  (LibraryError "connection reset") (bump hw)
                  eq_refl U eq_refl eq_refl)).
Defined.

Lemma success_without_identifier_witness :
  (let P := Faults.platform Faults.second_no_id in
   @CanvasAssignment.submit P sub2 (Faults.fresh Faults.second_no_id hw) =
   (Raise (KeyError "id"), Faults.after2 Faults.second_no_id sub2 hw))
  /\
  (let P := Faults.platform Faults.second_no_mapping in
   @CanvasAssignment.submit P sub2 (Faults.fresh Faults.second_no_mapping hw) =
   (Raise TypeError, Faults.after2 Faults.second_no_mapping sub2 hw)).
Proof.
  split.
  - intros P.
    assert (U : @uploaded P sub2 (Faults.fresh Faults.second_no_id hw)
                  ["hw/a/1.txt"] [PInt 100]
                  (Faults.after1 Faults.second_no_id sub2 hw)).
    { eapply uploaded_cons; [reflexivity|reflexivity|reflexivity|].
      apply uploaded_nil. }
    exact (proj1 (@success_without_identifier P sub2
                    (Faults.fresh Faults.second_no_id hw)
                    (Faults.after1 Faults.second_no_id sub2 hw)
                    ["hw/a/1.txt"] [] "hw/a/2.txt" [PInt 100]
                    (PDict [(PStr "url",
                             PStr "/api/v1/courses/3/assignments/12/submissions/7/files/hw/a/2.txt")])
                    (bump (bump hw))
                    eq_refl U eq_refl eq_refl)
                 _ eq_refl eq_refl).
  - intros P.
    assert (U : @uploaded P sub2 (Faults.fresh Faults.second_no_mapping hw)
                  ["hw/a/1.txt"] [PInt 100]
                  (Faults.after1 Faults.second_no_mapping sub2 hw)).
    { eapply uploaded_cons; [reflexivity|reflexivity|reflexivity|].
      apply uploaded_nil. }
    exact (proj2 (@success_without_identifier P sub2
                    (Faults.fresh Faults.second_no_mapping hw)
                    (Faults.after1 Faults.second_no_mapping sub2 hw)
                    ["hw/a/1.txt"] [] "hw/a/2.txt" [PInt 100]
                    PNone (bump (bump hw))
                    eq_refl U eq_refl eq_refl)
                 eq_refl).
Defined.

Lemma lookup_failure_after_uploads_witness :
  (let P := Faults.platform Faults.unknown_course in
   @CanvasAssignment.submit P sub2 (Faults.fresh Faults.unknown_course hw) =
   (Raise (LibraryError "no such course"),
    {| world := bump (bump hw);
       calls := [@upload_call P sub2 "hw/a/1.txt";
                 @upload_call P sub2 "hw/a/2.txt";
                 @GetCourse P (CanvasAssignment._canvas sub2) (PInt 3)];
       stdout := stdout (Faults.after2 Faults.unknown_course sub2 hw) |}))
  /\
  (let P := Faults.platform Faults.unknown_assignment in
   @CanvasAssignment.submit P sub2 (Faults.fresh Faults.unknown_assignment hw) =
   (Raise (LibraryError "no such assignment"),
    {| world := bump (bump hw);
       calls := [@upload_call P sub2 "hw/a/1.txt";
                 @upload_call P sub2 "hw/a/2.txt";
                 @GetCourse P (CanvasAssignment._canvas sub2) (PInt 3);
                 @GetAssignment P (PInt 3) (PInt 12)];
       stdout := stdout (Faults.after2 Faults.unknown_assignment sub2 hw) |})).
Proof.
  split.
  - intros P.
    assert (U : @uploaded P sub2 (Faults.fresh Faults.unknown_course hw)
                  (CanvasAssignment.file_list sub2) [PInt 100; PInt 101]
                  (Faults.after2 Faults.unknown_course sub2 hw)).
    { eapply uploaded_cons; [reflexivity|reflexivity|reflexivity|].
      eapply uploaded_cons; [reflexivity|reflexivity|reflexivity|].
      apply uploaded_nil. }
    exact (proj1 (@lookup_failure_after_uploads P sub2 _ _ _ U)
                 (LibraryError "no such course") (bump (bump hw)) eq_refl).
  - intros P.
    assert (U : @uploaded P sub2 (Faults.fresh Faults.unknown_assignment hw)
                  (CanvasAssignment.file_list sub2) [PInt 100; PInt 101]
                  (Faults.after2 Faults.unknown_assignment sub2 hw)).
    { eapply uploaded_cons; [reflexivity|reflexivity|reflexivity|].
      eapply uploaded_cons; [reflexivity|reflexivity|reflexivity|].
      apply uploaded_nil. }
    exact (proj2 (@lookup_failure_after_uploads P sub2 _ _ _ U)
                 (PInt 3) (LibraryError "no such assignment")
                 (bump (bump hw)) (bump (bump hw)) eq_refl eq_refl).
Defined.

Lemma submit_prints_upload_lines_witness :
  uploaded sub2 (fresh hw) (CanvasAssignment.file_list sub2)
    [PInt 100; PInt 101] (after2 sub2 hw)
  /\ stdout (snd (CanvasAssignment.submit sub2 (fresh hw))) =
     ["/api/v1/courses/3/assignments/12/submissions/7/files"; "hw/a/1.txt";
      "/api/v1/courses/3/assignments/12/submissions/7/files"; "hw/a/2.txt"].
Proof.
  assert (U : uploaded sub2 (fresh hw) (CanvasAssignment.file_list sub2)
                [PInt 100; PInt 101] (after2 sub2 hw)).
  { eapply uploaded_cons; [reflexivity|reflexivity|reflexivity|].
    eapply uploaded_cons; [reflexivity|reflexivity|reflexivity|].
    apply uploaded_nil. }
  split; [exact U|].
  exact (@submit_prints_upload_lines demo sub2 (fresh hw) (after2 sub2 hw)
           [PInt 100; PInt 101] U).
Defined.

Lemma upload_of_existing_file_witness :
  os_path_isfile (world (fresh hw)) "hw/a/1.txt" = true
  /\ upload_file_to_assignment (CanvasAssignment._requester sub2)
       (PInt 3) (PInt 12) (PInt 7) "hw/a/1.txt" (fresh hw) =
     (Ok (true,
          PDict [(PStr "id", PInt 100);
                 (PStr "url",
                  PStr "/api/v1/courses/3/assignments/12/submissions/7/files/hw/a/1.txt")]),
      {| world := bump hw;
         calls := [Upload (CanvasAssignment._requester sub2)
                     "/api/v1/courses/3/assignments/12/submissions/7/files"
                     "hw/a/1.txt"];
         stdout := ["/api/v1/courses/3/assignments/12/submissions/7/files";
                    "hw/a/1.txt"] |}).
Proof.
  split; [reflexivity|].
  exact (@upload_of_existing_file demo (CanvasAssignment._requester sub2)
           (PInt 3) (PInt 12) (PInt 7)
           "/api/v1/courses/3/assignments/12/submissions/7/files"
           "hw/a/1.txt" (fresh hw) _ (bump hw) eq_refl eq_refl eq_refl).
Defined.

Lemma init_after_successful_read_witness :
  ConfigReader.read (world (fresh hw))
    {| ConfigReader.path := "hw";
       ConfigReader.include_file := ".canvas-include.yml" |} =
    Ok (with_files example_files, ["hw/a/1.txt"; "hw/a/2.txt"], ["hw/b/x.py"])
  /\ CanvasAssignment.init "hw" ".canvas-include.yml" (fresh hw) =
     (Ok (submitter ["hw/a/1.txt"; "hw/a/2.txt"]),
      {| world := hw;
         calls := [GetCurrentUser
                     (CanvasAssignment._canvas
                        (submitter ["hw/a/1.txt"; "hw/a/2.txt"]))];
         stdout := ["7"] |}).
Proof.
  split; [reflexivity|].
  destruct (@init_after_successful_read demo "hw" ".canvas-include.yml"
              (fresh hw) (with_files example_files)
              ["hw/a/1.txt"; "hw/a/2.txt"] ["hw/b/x.py"] eq_refl)
    as [aid [cid [url [key [Ga [Gc [Gu [Gk I]]]]]]]].
  inversion Ga; inversion Gc; inversion Gu; inversion Gk; subst.
  exact (I {| id := PInt 7 |} hw eq_refl).
Defined.

Lemma init_identity_failure_witness :
  let P := Faults.platform Faults.unknown_user in
  @ConfigReader.read P hw
    {| ConfigReader.path := "hw";
       ConfigReader.include_file := ".canvas-include.yml" |} =
    Ok (with_files example_files, ["hw/a/1.txt"; "hw/a/2.txt"], ["hw/b/x.py"])
  /\ @CanvasAssignment.init P "hw" ".canvas-include.yml"
       (Faults.fresh Faults.unknown_user hw) =
     (Raise (LibraryError "unauthorized"),
      {| world := hw;
         calls := [@GetCurrentUser P
                     {| base_url := PStr "https://canvas.example.edu";
                        access_token := PStr "secret" |}];
         stdout := [] |}).
Proof.
  intros P. split; [reflexivity|].
  exact (@init_identity_failure P "hw" ".canvas-include.yml"
           (Faults.fresh Faults.unknown_user hw)
           (with_files example_files)
           (PStr "https://canvas.example.edu") (PStr "secret")
           ["hw/a/1.txt"; "hw/a/2.txt"] ["hw/b/x.py"]
           (LibraryError "unauthorized") hw
           eq_refl eq_refl eq_refl eq_refl).
Defined.

Lemma init_stops_before_client_witness :
  (os_path_isdir (world (fresh hw)) "nowhere" = false /\
   CanvasAssignment.init "nowhere" ".canvas-include.yml" (fresh hw) =
   (Raise (ValueError "'path' (nowhere) must be a directory."), fresh hw))
  /\
  (os_path_isfile (world (fresh hw)) "hw/a/.canvas-include.yml" = false /\
   CanvasAssignment.init "hw/a" ".canvas-include.yml" (fresh hw) =
   (Raise (FileNotFoundError "hw/a/.canvas-include.yml does not exist"),
    fresh hw))
  /\
  ((exists opt, dict_contains (PDict only_files) (value opt) = false) /\
   exists bad_keys,
     bad_keys <> [] /\
     (forall k, In k bad_keys <->
                (exists opt, k = value opt) /\
                dict_contains (PDict only_files) k = false) /\
     CanvasAssignment.init "hw" ".canvas-include.yml"
       (fresh (disk_of "only files" names [])) =
     (Raise (ValueError
               ("provided configuration " ++
                   String "010"
                     ("                                file is missing " ++
                      String "010"
                        ("                                required keys: " ++
                         py_format (PList (map PStr bad_keys)))))),
      fresh (disk_of "only files" names []))).
Proof.
  split; [|split].
  - split; [reflexivity|].
    exact (proj1 (@init_stops_before_client demo "nowhere"
                    ".canvas-include.yml" (fresh hw)) eq_refl).
  - split; [reflexivity|].
    exact (proj1 (proj2 (@init_stops_before_client demo "hw/a"
                           ".canvas-include.yml" (fresh hw)))
                 eq_refl eq_refl).
  - split; [exists AID; reflexivity|].
    exact (proj2 (proj2 (@init_stops_before_client demo "hw"
                           ".canvas-include.yml"
                           (fresh (disk_of "only files" names []))))
                 "only files" only_files eq_refl eq_refl eq_refl eq_refl
                 (ex_intro _ AID eq_refl)).
Defined.

End MoreRuns.

(** ** Uploads without a submission *)

Section NoSubmission.
Import Fixture.

(** C1 as stated fails: with every upload of the list reporting success
    and returning an identifier, [submit] need not send a submission.  On
    the service that does not know the course the two uploads go through,
    the lookup of the course raises and the log holds no submission. *)
Lemma uploads_succeed_without_submission :
  ~ (forall (P : Platform) (self : CanvasAssignment.t) (s s1 : @state P)
            (ids : list pyval),
       @uploaded P self s (CanvasAssignment.file_list self) ids s1 ->
       exists assignment,
         filter (@is_submit P) (calls (snd (@CanvasAssignment.submit P self s))) =
         filter (@is_submit P) (calls s) ++
         [@Submit P assignment (CanvasAssignment.submission_of ids)]).
Proof.
  intros Claim.
  assert (U : @uploaded (Faults.platform Faults.unknown_course) sub2
                (Faults.fresh Faults.unknown_course hw)
                (CanvasAssignment.file_list sub2) [PInt 100; PInt 101]
                (Faults.after2 Faults.unknown_course sub2 hw)).
  { eapply uploaded_cons; [reflexivity|reflexivity|reflexivity|].
    eapply uploaded_cons; [reflexivity|reflexivity|reflexivity|].
    apply uploaded_nil. }
  destruct (Claim _ _ _ _ _ U) as [assignment E].
  discriminate E.
Qed.

(** C9 as stated fails in its last part: with an empty direct list
    [submit] need not send a submission.  On the service that does not
    know the course the only call made is the lookup of the course. *)
Lemma empty_list_without_submission :
  ~ (forall (P : Platform) (self : CanvasAssignment.t) (s : @state P),
       CanvasAssignment.file_list self = [] ->
       exists assignment,
         In (@Submit P assignment (CanvasAssignment.submission_of []))
            (calls (snd (@CanvasAssignment.submit P self s)))).
Proof.
  intros Claim.
  destruct (Claim (Faults.platform Faults.unknown_course) (submitter [])
              (Faults.fresh Faults.unknown_course hw) eq_refl)
    as [assignment [E|[]]].
  discriminate E.
Qed.

End NoSubmission.
